(** * Payment server: record model, lifecycle manager and request dispatcher

    A shallow embedding of [model.go] and of the handlers of [server.go],
    over an in-memory model of the document store the Go code talks to
    through the mgo driver. *)

From Stdlib Require Import Ascii String ZArith List Lia.
From ExtLib Require Import Structures.Monad Structures.MonadState.
From ExtLib Require Import Data.Monads.StateMonad.
Import ListNotations.
Import MonadNotation.
Local Open Scope monad_scope.
Local Open Scope string_scope.
Local Open Scope Z_scope.

(** ** Record model ([model.go], type [Payment])

    The anonymous nested structs of the Go type get one record each, in a
    module named after the field that holds them.  Go's [int] is [Z]: the
    code only stores and returns these numbers. *)

(** A Go slice value is either [nil] or a (possibly empty) sequence; the JSON
    encoder prints the first as [null] and the second as an array. *)
Inductive GoSlice (A : Type) : Type :=
| SliceNil
| SliceOf (elems : list A).
Arguments SliceNil {A}.
Arguments SliceOf {A} elems.

Module BeneficiaryParty.
Record t : Type := mk {
    AccountName : string;
    AccountNumber : string;
    AccountNumberCode : string;
    AccountType : Z;
    Address : string;
    BankID : string;
    BankIDCode : string;
    Name : string
}.
Definition zero : t := mk "" "" "" 0 "" "" "" "".
End BeneficiaryParty.

Module SenderCharge.
Record t : Type := mk {
    Amount : string;
    Currency : string
}.
End SenderCharge.

Module ChargesInformation.
Record t : Type := mk {
    BearerCode : string;
    SenderCharges : GoSlice SenderCharge.t;
    ReceiverChargesAmount : string;
    ReceiverChargesCurrency : string
}.
Definition zero : t := mk "" SliceNil "" "".
End ChargesInformation.

Module DebtorParty.
Record t : Type := mk {
    AccountName : string;
    AccountNumber : string;
    AccountNumberCode : string;
    Address : string;
    BankID : string;
    BankIDCode : string;
    Name : string
}.
Definition zero : t := mk "" "" "" "" "" "" "".
End DebtorParty.

Module Fx.
Record t : Type := mk {
    ContractReference : string;
    ExchangeRate : string;
    OriginalAmount : string;
    OriginalCurrency : string
}.
Definition zero : t := mk "" "" "" "".
End Fx.

Module SponsorParty.
Record t : Type := mk {
    AccountNumber : string;
    BankID : string;
    BankIDCode : string
}.
Definition zero : t := mk "" "" "".
End SponsorParty.

Module Attributes.
Record t : Type := mk {
    Amount : string;
    BeneficiaryParty : BeneficiaryParty.t;
    ChargesInformation : ChargesInformation.t;
    Currency : string;
    DebtorParty : DebtorParty.t;
    EndToEndReference : string;
    Fx : Fx.t;
    NumericReference : string;
    PaymentID : string;
    PaymentPurpose : string;
    PaymentScheme : string;
    PaymentType : string;
    ProcessingDate : string;
    Reference : string;
    SchemePaymentSubType : string;
    SchemePaymentType : string;
    SponsorParty : SponsorParty.t
}.
Definition zero : t :=
    mk "" BeneficiaryParty.zero ChargesInformation.zero "" DebtorParty.zero ""
       Fx.zero "" "" "" "" "" "" "" "" "" SponsorParty.zero.
End Attributes.

(** [Type] is a keyword here, so the first field is [Type_]. *)
Record Payment : Type := mkPayment {
  Type_ : string;
  ID : string;
  Version : Z;
  OrganisationID : string;
  Attributes : Attributes.t
}.

(** [var payment Payment]: the zero value. *)
Definition zeroPayment : Payment := mkPayment "" "" 0 "" Attributes.zero.

(** [Payment{ID: id}]. *)
Definition PaymentWithID (id : string) : Payment :=
  mkPayment "" id 0 "" Attributes.zero.

Definition setID (id : string) (p : Payment) : Payment :=
  mkPayment (Type_ p) id (Version p) (OrganisationID p) (Attributes p).

(** [type Payments]. *)
Module Links.
Record t : Type := mk {
  Self : string
}.
End Links.

Record Payments : Type := mkPayments {
  P : GoSlice Payment;
  Links : Links.t
}.

(** *** [reflect.DeepEqual] on payments

    Two payments are deeply equal when all their fields are; a nil slice
    and an empty slice are not, and neither are they equal here. *)

Definition SenderCharge_eq_dec (a b : SenderCharge.t) : {a = b} + {a <> b}.
Proof. decide equality; apply string_dec. Defined.

Definition BeneficiaryParty_eq_dec (a b : BeneficiaryParty.t) : {a = b} + {a <> b}.
Proof. decide equality; first [apply string_dec | apply Z.eq_dec]. Defined.

Definition GoSlice_eq_dec {A : Type}
  (A_eq_dec : forall x y : A, {x = y} + {x <> y}) (a b : GoSlice A)
  : {a = b} + {a <> b}.
Proof. decide equality. apply (list_eq_dec A_eq_dec). Defined.

Definition ChargesInformation_eq_dec (a b : ChargesInformation.t) : {a = b} + {a <> b}.
Proof.
  decide equality;
    first [apply string_dec | apply (GoSlice_eq_dec SenderCharge_eq_dec)].
Defined.

Definition DebtorParty_eq_dec (a b : DebtorParty.t) : {a = b} + {a <> b}.
Proof. decide equality; apply string_dec. Defined.

Definition Fx_eq_dec (a b : Fx.t) : {a = b} + {a <> b}.
Proof. decide equality; apply string_dec. Defined.

Definition SponsorParty_eq_dec (a b : SponsorParty.t) : {a = b} + {a <> b}.
Proof. decide equality; apply string_dec. Defined.

Definition Attributes_eq_dec (a b : Attributes.t) : {a = b} + {a <> b}.
Proof.
  decide equality;
    first [ apply string_dec | apply BeneficiaryParty_eq_dec
          | apply ChargesInformation_eq_dec | apply DebtorParty_eq_dec
          | apply Fx_eq_dec | apply SponsorParty_eq_dec ].
Defined.

Definition Payment_eq_dec (a b : Payment) : {a = b} + {a <> b}.
Proof.
  decide equality;
    first [apply string_dec | apply Z.eq_dec | apply Attributes_eq_dec].
Defined.

Definition DeepEqual (a b : Payment) : bool :=
  if Payment_eq_dec a b then true else false.

(** ** Errors

    A Go [error] is either a value built by [errors.New] in [model.go] or a
    value handed back by the store driver; [nil] is [None]. *)

Inductive DriverError : Type :=
| ErrUnreachable
| ErrNotFound
| ErrDuplicateKey.

Inductive error : Type :=
| errorsNew (text : string)
| driverError (e : DriverError).

(** [err.Error()]. *)
Definition Error (e : error) : string :=
  match e with
  | errorsNew text => text
  | driverError ErrUnreachable => "no reachable servers"
  | driverError ErrNotFound => "not found"
  | driverError ErrDuplicateKey => "E11000 duplicate key error"
  end.

(** ** The store collaborator

    The document store and its driver are not part of the repository;
    section 6 of the specification gives their contract.  The collection is
    the sequence of stored records in insertion order.  The global
    [COLLECTION] names the one collection every call uses. *)

Inductive Selector : Type :=
| SelAll                  (* bson.M{} *)
| SelID (id : string).    (* bson.M{"_id": id} *)

Inductive StoreCall : Type :=
| CallAll (sel : Selector)
| CallCount (sel : Selector)
| CallOne (sel : Selector)
| CallInsert (doc : Payment)
| CallUpdateId (id : string) (doc : Payment)
| CallRemove (sel : Selector).

(** Modelled from the spec: the store behind [*mgo.Database], holding records
    keyed by their identifier.  Every call that reaches the
    store is appended to [issued] and consumes one entry of [faults]: [true]
    makes that call fail with a connection error, and an exhausted schedule
    means the store answers. *)
Record Database : Type := mkDatabase {
  docs : list Payment;
  faults : list bool;
  issued : list StoreCall
}.

(** [p.Attributes.ChargesInformation.SenderCharges]. *)
Definition SenderChargesOf (p : Payment) : GoSlice SenderCharge.t :=
  ChargesInformation.SenderCharges
    (Attributes.ChargesInformation (Attributes p)).

(** [p] with its [SenderCharges] set to [s] and every other field kept. *)
Definition setSenderCharges (s : GoSlice SenderCharge.t) (p : Payment)
  : Payment :=
  let a := Attributes p in
  let c := Attributes.ChargesInformation a in
  mkPayment (Type_ p) (ID p) (Version p) (OrganisationID p)
    (Attributes.mk (Attributes.Amount a) (Attributes.BeneficiaryParty a)
       (ChargesInformation.mk (ChargesInformation.BearerCode c) s
          (ChargesInformation.ReceiverChargesAmount c)
          (ChargesInformation.ReceiverChargesCurrency c))
       (Attributes.Currency a) (Attributes.DebtorParty a)
       (Attributes.EndToEndReference a) (Attributes.Fx a)
       (Attributes.NumericReference a) (Attributes.PaymentID a)
       (Attributes.PaymentPurpose a) (Attributes.PaymentScheme a)
       (Attributes.PaymentType a) (Attributes.ProcessingDate a)
       (Attributes.Reference a) (Attributes.SchemePaymentSubType a)
       (Attributes.SchemePaymentType a) (Attributes.SponsorParty a)).

Definition nilToEmpty {A : Type} (s : GoSlice A) : GoSlice A :=
  match s with
  | SliceNil => SliceOf []
  | SliceOf l => SliceOf l
  end.

(** Modelled from the spec: a record as the store holds it.  The driver
    writes a record as a BSON document, which has arrays but no nil slice:
    a nil [SenderCharges] is written as an empty array and comes back as an
    empty slice.  Every other field is kept as it is. *)
Definition asStored (p : Payment) : Payment :=
  setSenderCharges (nilToEmpty (SenderChargesOf p)) p.

Definition matches (sel : Selector) (doc : Payment) : bool :=
  match sel with
  | SelAll => true
  | SelID id => String.eqb (ID doc) id
  end.

(** Replace, respectively drop, the first record a selector matches. *)
Fixpoint replaceFirst (sel : Selector) (new : Payment) (l : list Payment)
  : list Payment :=
  match l with
  | [] => []
  | d :: rest =>
      if matches sel d then new :: rest else d :: replaceFirst sel new rest
  end.

Fixpoint removeFirst (sel : Selector) (l : list Payment) : list Payment :=
  match l with
  | [] => []
  | d :: rest => if matches sel d then rest else d :: removeFirst sel rest
  end.

(** One round trip to the store: log the call, consume a fault flag and tell
    whether the call failed. *)
Definition roundTrip (c : StoreCall) : state Database bool :=
  db <- get ;;
  put (mkDatabase (docs db) (tl (faults db)) (issued db ++ [c])) ;;
  ret (hd false (faults db)).

Definition setDocs (l : list Payment) : state Database unit :=
  db <- get ;;
  put (mkDatabase l (faults db) (issued db)).

(** [db.C(COLLECTION).Find(selector)] only builds a query value. *)
Definition Query : Type := Selector.
Definition Find (sel : Selector) : Query := sel.

(** Modelled from the spec: [countByID], the driver's [query.Count()]. *)
Definition Count (q : Query) : state Database (Z * option error) :=
  failed <- roundTrip (CallCount q) ;;
  if (failed : bool) then ret (0, Some (driverError ErrUnreachable))
  else
    db <- get ;;
    ret (Z.of_nat (length (filter (matches q) (docs db))), None).

(** Modelled from the spec: [findByID], the driver's [query.One(&result)].
    The first match is written to [result]; on an error [result] keeps its
    value. *)
Definition One (q : Query) (result : Payment)
  : state Database (Payment * option error) :=
  failed <- roundTrip (CallOne q) ;;
  if (failed : bool) then ret (result, Some (driverError ErrUnreachable))
  else
    db <- get ;;
    match filter (matches q) (docs db) with
    | [] => ret (result, Some (driverError ErrNotFound))
    | d :: _ => ret (d, None)
    end.

(** Modelled from the spec: [findAll], the driver's [query.All(&result)].
    [result] is cut to length zero and the matches are appended; a nil slice
    that receives nothing stays nil. *)
Definition All (q : Query) (result : GoSlice Payment)
  : state Database (GoSlice Payment * option error) :=
  failed <- roundTrip (CallAll q) ;;
  let empty :=
    match result with SliceNil => SliceNil | SliceOf _ => SliceOf [] end in
  if (failed : bool) then ret (empty, Some (driverError ErrUnreachable))
  else
    db <- get ;;
    match filter (matches q) (docs db) with
    | [] => ret (empty, None)
    | l => ret (SliceOf l, None)
    end.

(** Modelled from the spec: [insert], the driver's
    [db.C(COLLECTION).Insert(doc)].  It fails when the connection is
    unavailable or the write is rejected: the store refuses a second record
    with an identifier it already holds. *)
Definition Insert (doc : Payment) : state Database (option error) :=
  failed <- roundTrip (CallInsert doc) ;;
  if (failed : bool) then ret (Some (driverError ErrUnreachable))
  else
    db <- get ;;
    if existsb (matches (SelID (ID doc))) (docs db)
    then ret (Some (driverError ErrDuplicateKey))
    else setDocs (docs db ++ [asStored doc]) ;; ret None.

(** Modelled from the spec: [updateByID], the driver's
    [db.C(COLLECTION).UpdateId(id, doc)]: full replacement of the record with
    that identifier. *)
Definition UpdateId (id : string) (doc : Payment)
  : state Database (option error) :=
  failed <- roundTrip (CallUpdateId id doc) ;;
  if (failed : bool) then ret (Some (driverError ErrUnreachable))
  else
    db <- get ;;
    if existsb (matches (SelID id)) (docs db)
    then setDocs (replaceFirst (SelID id) (asStored doc) (docs db)) ;; ret None
    else ret (Some (driverError ErrNotFound)).

(** Modelled from the spec: [removeByID], the driver's
    [db.C(COLLECTION).Remove(selector)].  It removes one matching record and
    fails only without a connection, not on absence. *)
Definition Remove (sel : Selector) : state Database (option error) :=
  failed <- roundTrip (CallRemove sel) ;;
  if (failed : bool) then ret (Some (driverError ErrUnreachable))
  else
    db <- get ;;
    setDocs (removeFirst sel (docs db)) ;; ret None.

(** ** Lifecycle manager ([model.go]) *)

(** [checkEmptyPaymentID]. *)
Definition checkEmptyPaymentID (p : Payment) : bool :=
  if String.eqb (ID p) "" then true else false.

(** [returnPaymentCount]. *)
Definition returnPaymentCount (p : Payment)
  : state Database (Z * option error) :=
  let query := Find (SelID (ID p)) in
  '(count, err) <- Count query ;;
  match err with
  | Some _ => ret (-1, err)
  | None => ret (count, None)
  end.

(** [returnPaymentCountAndQuery]; the returned [*mgo.Query] is [nil] on an
    error. *)
Definition returnPaymentCountAndQuery (p : Payment)
  : state Database (option Query * Z * option error) :=
  let query := Find (SelID (ID p)) in
  '(count, err) <- Count query ;;
  match err with
  | Some _ => ret (None, -1, err)
  | None => ret (Some query, count, None)
  end.

(** [modelGetPayments]. *)
Definition modelGetPayments (p : Payment)
  : state Database (GoSlice Payment * option error) :=
  let payments := SliceOf [] in
  '(payments, err) <- All (Find SelAll) payments ;;
  ret (payments, err).

(** [modelGetPayment].  The error of [query.One] is dropped, as in the
    source; [query] is not [nil] where it is used, because
    [returnPaymentCountAndQuery] gave no error there. *)
Definition modelGetPayment (p : Payment)
  : state Database (Z * Payment * option error) :=
  let payment := zeroPayment in
  if checkEmptyPaymentID p
  then ret (-1, payment, Some (errorsNew "No Payment ID specified"))
  else
    '(query, count, err) <- returnPaymentCountAndQuery p ;;
    match err with
    | Some _ => ret (-1, payment, err)
    | None =>
        if count =? 0
        then ret (count, payment, Some (errorsNew "Payment not found"))
        else if count >? 1
        then ret (-1, payment,
                  Some (errorsNew "More than one payment returned per ID"))
        else
          match query with
          | Some q =>
              '(payment, _) <- One q payment ;;
              ret (count, payment, err)
          | None => ret (count, payment, err)
          end
    end.

(** [modelDeletePaymentValidCheck]. *)
Definition modelDeletePaymentValidCheck (p : Payment)
  : state Database (option error) :=
  if checkEmptyPaymentID p
  then ret (Some (errorsNew
                    "Cannot delete a payment without a Payment ID specified"))
  else
    '(count, err) <- returnPaymentCount p ;;
    match err with
    | Some _ => ret err
    | None =>
        if count =? 0
        then ret (Some (errorsNew
                          "A payment with this Payment ID doesn't exists"))
        else ret None
    end.

(** [modelDeletePayment]. *)
Definition modelDeletePayment (p : Payment) : state Database (option error) :=
  Remove (SelID (ID p)).

(** [modelCreatePaymentValidCheck]. *)
Definition modelCreatePaymentValidCheck (p : Payment)
  : state Database (option error) :=
  if checkEmptyPaymentID p
  then ret (Some (errorsNew
                    "Cannot add a payment without a Payment ID specified"))
  else
    '(count, err) <- returnPaymentCount p ;;
    match err with
    | Some _ => ret err
    | None =>
        if count >? 0
        then ret (Some (errorsNew
                          "A payment with this Payment ID already exists"))
        else ret None
    end.

(** [modelCreatePayment]. *)
Definition modelCreatePayment (p : Payment) : state Database (option error) :=
  Insert p.

(** [modelUpdatePaymentValidCheck]. *)
Definition modelUpdatePaymentValidCheck (p : Payment)
  : state Database (option error) :=
  if checkEmptyPaymentID p
  then ret (Some (errorsNew
                    "Cannot update a payment without a Payment ID specified"))
  else
    '(count, err) <- returnPaymentCount p ;;
    match err with
    | Some _ => ret err
    | None =>
        if count =? 0
        then ret (Some (errorsNew
                          "A payment with this Payment ID does not exist"))
        else ret None
    end.

(** [modelUpdatePayment]. *)
Definition modelUpdatePayment (p : Payment) : state Database (option error) :=
  UpdateId (ID p) p.

(** ** Request dispatcher ([server.go]) *)

Definition StatusOK : Z := 200.
Definition StatusCreated : Z := 201.
Definition StatusBadRequest : Z := 400.
Definition StatusNotFound : Z := 404.
Definition StatusInternalServerError : Z := 500.

(** The value a handler passes to [json.Marshal], or the plain text the
    router writes when no route matches. *)
Inductive Payload : Type :=
| JSONMap (key value : string)      (* map[string]string{key: value} *)
| JSONPayment (p : Payment)
| JSONPayments (ps : Payments)
| PlainText (text : string).

(** What a handler writes to its [http.ResponseWriter]. *)
Record Response : Type := mkResponse {
  code : Z;
  content : Payload
}.

(** [respondWithJSON]. *)
Definition respondWithJSON (code : Z) (payload : Payload) : Response :=
  mkResponse code payload.

(** [respondWithError]. *)
Definition respondWithError (code : Z) (message : string) : Response :=
  respondWithJSON code (JSONMap "error" message).

(** Modelled from the spec: the transport collaborator's decoding of a
    request body.  A body either fails to decode into the record shape or is
    a JSON object; [decoded] is the record the object yields on a zero
    [Payment], and [hasID] tells whether the object has an ["id"] member. *)
Inductive RequestBody : Type :=
| Malformed
| JSONObject (hasID : bool) (decoded : Payment).

(** Modelled from the spec: [decoder.Decode(&p)].  Members of the object
    overwrite the fields of [p] and the other fields keep their value; both
    handlers pass a [p] whose fields other than [ID] are zero. *)
Definition Decode (body : RequestBody) (p : Payment)
  : Payment * option error :=
  match body with
  | Malformed => (p, Some (errorsNew "invalid character"))
  | JSONObject hasID decoded =>
      (if hasID then decoded else setID (ID p) decoded, None)
  end.

(** [getPayments]. *)
Definition getPayments : state Database Response :=
  let p := zeroPayment in
  '(payment, err) <- modelGetPayments p ;;
  match err with
  | Some e => ret (respondWithError StatusInternalServerError (Error e))
  | None =>
      let paymentScope :=
        mkPayments payment
          (Links.mk "https://api.test.form3.tech/v1/payments") in
      ret (respondWithJSON StatusOK (JSONPayments paymentScope))
  end.

(** [createPayment]. *)
Definition createPayment (body : RequestBody) : state Database Response :=
  let p := zeroPayment in
  let '(p, derr) := Decode body p in
  match derr with
  | Some _ =>
      ret (respondWithError StatusBadRequest "Invalid payload request")
  | None =>
      verr <- modelCreatePaymentValidCheck p ;;
      match verr with
      | Some e => ret (respondWithError StatusBadRequest (Error e))
      | None =>
          cerr <- modelCreatePayment p ;;
          match cerr with
          | Some e =>
              ret (respondWithError StatusInternalServerError (Error e))
          | None => ret (respondWithJSON StatusCreated (JSONPayment p))
          end
      end
  end.

(** [getPayment]; [id] is [mux.Vars(r)["id"]]. *)
Definition getPayment (id : string) : state Database Response :=
  let p := PaymentWithID id in
  '(count, payment, err) <- modelGetPayment p ;;
  match err with
  | Some e =>
      if count <? 0
      then ret (respondWithError StatusInternalServerError (Error e))
      else if count =? 0
      then ret (respondWithError StatusNotFound (Error e))
      else ret (respondWithJSON StatusOK (JSONPayment payment))
  | None => ret (respondWithJSON StatusOK (JSONPayment payment))
  end.

(** [updatePayment]; [id] is [mux.Vars(r)["id"]]. *)
Definition updatePayment (id : string) (body : RequestBody)
  : state Database Response :=
  let p := PaymentWithID id in
  let '(p, derr) := Decode body p in
  match derr with
  | Some _ =>
      ret (respondWithError StatusBadRequest "Invalid request payload")
  | None =>
      verr <- modelUpdatePaymentValidCheck p ;;
      match verr with
      | Some e => ret (respondWithError StatusNotFound (Error e))
      | None =>
          uerr <- modelUpdatePayment p ;;
          match uerr with
          | Some e =>
              ret (respondWithError StatusInternalServerError (Error e))
          | None => ret (respondWithJSON StatusOK (JSONPayment p))
          end
      end
  end.

(** [deletePayment]; [id] is [mux.Vars(r)["id"]]. *)
Definition deletePayment (id : string) : state Database Response :=
  let p := PaymentWithID id in
  verr <- modelDeletePaymentValidCheck p ;;
  match verr with
  | Some e => ret (respondWithError StatusNotFound (Error e))
  | None =>
      derr <- modelDeletePayment p ;;
      match derr with
      | Some e => ret (respondWithError StatusInternalServerError (Error e))
      | None => ret (respondWithJSON StatusOK (JSONMap "result" "success"))
      end
  end.

(** ** Store states *)

(** Number of stored records with identifier [id]. *)
Definition stored (id : string) (db : Database) : nat :=
  length (filter (matches (SelID id)) (docs db)).

(** The data-model invariant: at most one record per identifier. *)
Definition uniqueIDs (db : Database) : Prop := NoDup (map ID (docs db)).

(** The store answers every call: nothing is left in the fault schedule. *)
Definition answering (db : Database) : Prop := faults db = [].

(** A store in its initial session state holding the given records. *)
Definition storeOf (l : list Payment) : Database := mkDatabase l [] [].

(** The session state after one more call has been sent to the store. *)
Definition logged (c : StoreCall) (db : Database) : Database :=
  mkDatabase (docs db) (tl (faults db)) (issued db ++ [c]).

(** Whether the next call sent to the store fails. *)
Definition nextFails (db : Database) : bool := hd false (faults db).

(** ** Records of the test suite

    The two request bodies of [main_test.go], decoded: [payload], and
    [payload2] with the amount and the debtor's account name changed. *)

Definition payloadAttributes (amount debtorAccountName : string)
  : Attributes.t :=
  Attributes.mk amount
    (BeneficiaryParty.mk "W Owens" "31926819" "BBAN" 0
       "1 The Beneficiary Localtown SE2" "403000" "GBDSC"
       "Wilfred Jeremiah Owens")
    (ChargesInformation.mk "SHAR"
       (SliceOf [SenderCharge.mk "5.00" "GBP"; SenderCharge.mk "10.00" "USD"])
       "1.00" "USD")
    "GBP"
    (DebtorParty.mk debtorAccountName "GB29XABC10161234567801" "IBAN"
       "10 Debtor Crescent Sourcetown NE1" "203301" "GBDSC"
       "Emelia Jane Brown")
    "Wil piano Jan"
    (Fx.mk "FX123" "2.00000" "200.42" "USD")
    "1002001" "123456789012345678" "Paying for goods/services" "FPS"
    "Credit" "2017-01-18" "Payment for Em's piano lessons"
    "InternetBanking" "ImmediatePayment"
    (SponsorParty.mk "56781234" "123123" "GBDSC").

Definition payload : Payment :=
  mkPayment "Payment" "4ee3a8d8-ca7b-4290-a52c-dd5b6165ec43" 0
    "743d5b63-8e6f-432e-a8fa-c5d8d2ee5fcb"
    (payloadAttributes "100.21" "EJ Brown Black").

Definition payload2 : Payment :=
  mkPayment "Payment" "4ee3a8d8-ca7b-4290-a52c-dd5b6165ec43" 0
    "743d5b63-8e6f-432e-a8fa-c5d8d2ee5fcb"
    (payloadAttributes "121.00" "EJ Brown Blue").

(** ** Requests

    A request by method and path, one constructor per route of
    [initializeRoutes]: [GET_payment id] is [GET /payment/id], and so on,
    with the body the handler reads. *)
Inductive Request : Type :=
| GET_payments
| POST_payment (body : RequestBody)
| GET_payment (id : string)
| PUT_payment (id : string) (body : RequestBody)
| DELETE_payment (id : string).

Fixpoint hasSlash (s : string) : bool :=
  match s with
  | EmptyString => false
  | String c rest => if Ascii.eqb c "/"%char then true else hasSlash rest
  end.

(** Modelled from the spec: the router's matching of the [{id}] variable of
    a path template, which stands for one path segment: not empty, and
    without a slash. *)
Definition matchesVar (segment : string) : bool :=
  negb (String.eqb segment "") && negb (hasSlash segment).

(** Modelled from the spec: the router's answer to a request no route
    matches, status 404 with the text of [http.NotFound]. *)
Definition NotFoundHandler : Response :=
  mkResponse StatusNotFound
    (PlainText (String.append "404 page not found" (String "010"%char ""))).

(** [initializeRoutes]: the handler registered for each route; a path whose
    last segment does not match [{id}] reaches no handler. *)
Definition initializeRoutes (req : Request) : state Database Response :=
  match req with
  | GET_payments => getPayments
  | POST_payment body => createPayment body
  | GET_payment id =>
      if matchesVar id then getPayment id else ret NotFoundHandler
  | PUT_payment id body =>
      if matchesVar id then updatePayment id body else ret NotFoundHandler
  | DELETE_payment id =>
      if matchesVar id then deletePayment id else ret NotFoundHandler
  end.

(** [executeRequest] of [main_test.go], for a sequence of routed requests
    served one after the other on the same store. *)
Fixpoint executeRequests (reqs : list Request)
  : state Database (list Response) :=
  match reqs with
  | [] => ret []
  | req :: rest =>
      response <- initializeRoutes req ;;
      responses <- executeRequests rest ;;
      ret (response :: responses)
  end.

(** The calls a run adds to the log of issued store calls. *)
Definition callsOf {A : Type} (m : state Database A) (db : Database)
  : list StoreCall :=
  skipn (length (issued db)) (issued (execState m db)).

(** Every stored record has a non-empty identifier. *)
Definition nonEmptyIDs (db : Database) : Prop :=
  Forall (fun d => ID d <> "") (docs db).

(** The response of [modelGetPayment]'s uniqueness check. *)
Definition conflictResponse : Response :=
  respondWithError StatusInternalServerError
    "More than one payment returned per ID".

(** * Properties *)

(** ** The store calls, run on a state *)

Lemma run_Count (q : Query) (db : Database) :
  runState (Count q) db =
  (if nextFails db then (0, Some (driverError ErrUnreachable))
   else (Z.of_nat (length (filter (matches q) (docs db))), None),
   logged (CallCount q) db).
Proof.
  destruct db as [d f i]; unfold nextFails, logged; cbn.
  destruct (hd false f); reflexivity.
Qed.

Lemma run_bind {A B : Type} (m : state Database A)
      (f : A -> state Database B) (db : Database) :
  runState (bind m f) db =
  let (a, db') := runState m db in runState (f a) db'.
Proof. reflexivity. Qed.

Lemma run_ret {A : Type} (a : A) (db : Database) :
  runState (ret a) db = (a, db).
Proof. reflexivity. Qed.

Lemma run_One (q : Query) (result : Payment) (db : Database) :
  runState (One q result) db =
  (if nextFails db then (result, Some (driverError ErrUnreachable))
   else match filter (matches q) (docs db) with
        | [] => (result, Some (driverError ErrNotFound))
        | d :: _ => (d, None)
        end,
   logged (CallOne q) db).
Proof.
  destruct db as [d f i]; unfold nextFails, logged; cbn.
  destruct (hd false f); cbn; [reflexivity|].
  destruct (filter (matches q) d); reflexivity.
Qed.

Lemma run_Insert (doc : Payment) (db : Database) :
  runState (Insert doc) db =
  if nextFails db
  then (Some (driverError ErrUnreachable), logged (CallInsert doc) db)
  else if existsb (matches (SelID (ID doc))) (docs db)
  then (Some (driverError ErrDuplicateKey), logged (CallInsert doc) db)
  else (None, mkDatabase (docs db ++ [asStored doc]) (tl (faults db))
                         (issued db ++ [CallInsert doc])).
Proof.
  destruct db as [d f i]; unfold nextFails, logged; cbn.
  destruct (hd false f); cbn; [reflexivity|].
  destruct (existsb _ d); reflexivity.
Qed.

Lemma run_UpdateId (id : string) (doc : Payment) (db : Database) :
  runState (UpdateId id doc) db =
  if nextFails db
  then (Some (driverError ErrUnreachable), logged (CallUpdateId id doc) db)
  else if existsb (matches (SelID id)) (docs db)
  then (None, mkDatabase (replaceFirst (SelID id) (asStored doc) (docs db))
                         (tl (faults db))
                         (issued db ++ [CallUpdateId id doc]))
  else (Some (driverError ErrNotFound), logged (CallUpdateId id doc) db).
Proof.
  destruct db as [d f i]; unfold nextFails, logged; cbn.
  destruct (hd false f); cbn; [reflexivity|].
  destruct (existsb _ d); reflexivity.
Qed.

Lemma run_Remove (sel : Selector) (db : Database) :
  runState (Remove sel) db =
  if nextFails db
  then (Some (driverError ErrUnreachable), logged (CallRemove sel) db)
  else (None, mkDatabase (removeFirst sel (docs db)) (tl (faults db))
                         (issued db ++ [CallRemove sel])).
Proof.
  destruct db as [d f i]; unfold nextFails, logged; cbn.
  destruct (hd false f); reflexivity.
Qed.

Lemma run_All (q : Query) (result : GoSlice Payment) (db : Database) :
  runState (All q result) db =
  (let empty :=
     match result with SliceNil => SliceNil | SliceOf _ => SliceOf [] end in
   if nextFails db then (empty, Some (driverError ErrUnreachable))
   else match filter (matches q) (docs db) with
        | [] => (empty, None)
        | l => (SliceOf l, None)
        end,
   logged (CallAll q) db).
Proof.
  destruct db as [d f i]; unfold nextFails, logged; cbn.
  destruct (hd false f); cbn; [reflexivity|].
  destruct (filter (matches q) d); reflexivity.
Qed.

(** ** Identifiers and counts *)

Lemma checkEmptyPaymentID_spec (p : Payment) :
  checkEmptyPaymentID p = true <-> ID p = "".
Proof.
  unfold checkEmptyPaymentID.
  destruct (String.eqb_spec (ID p) ""); split; congruence.
Qed.

Lemma checkEmptyPaymentID_nonempty (p : Payment) :
  ID p <> "" -> checkEmptyPaymentID p = false.
Proof.
  intros H. destruct (checkEmptyPaymentID p) eqn:E; [|reflexivity].
  apply checkEmptyPaymentID_spec in E. contradiction.
Qed.

Lemma run_returnPaymentCount (p : Payment) (db : Database) :
  runState (returnPaymentCount p) db =
  (if nextFails db then (-1, Some (driverError ErrUnreachable))
   else (Z.of_nat (stored (ID p) db), None),
   logged (CallCount (SelID (ID p))) db).
Proof.
  unfold returnPaymentCount. rewrite run_bind, run_Count.
  unfold Find, stored. destruct (nextFails db); reflexivity.
Qed.

Lemma run_returnPaymentCountAndQuery (p : Payment) (db : Database) :
  runState (returnPaymentCountAndQuery p) db =
  (if nextFails db then (None, -1, Some (driverError ErrUnreachable))
   else (Some (SelID (ID p)), Z.of_nat (stored (ID p) db), None),
   logged (CallCount (SelID (ID p))) db).
Proof.
  unfold returnPaymentCountAndQuery. rewrite run_bind, run_Count.
  unfold Find, stored. destruct (nextFails db); reflexivity.
Qed.

Lemma stored_existsb (id : string) (db : Database) :
  existsb (matches (SelID id)) (docs db) = negb (Nat.eqb (stored id db) 0).
Proof.
  unfold stored. induction (docs db) as [|d l IH]; [reflexivity|].
  cbn [existsb filter]. destruct (matches (SelID id) d); [reflexivity|].
  exact IH.
Qed.

Lemma stored_In (id : string) (db : Database) :
  In id (map ID (docs db)) <-> (0 < stored id db)%nat.
Proof.
  unfold stored. induction (docs db) as [|d l IH]; cbn [map In filter matches].
  - cbn. split; [tauto | lia].
  - destruct (String.eqb_spec (ID d) id) as [E|E]; cbn [length].
    + split; [lia | auto].
    + rewrite <- IH. split; [intros [H|H]; [contradiction | exact H] | auto].
Qed.

Lemma filter_absent (id : string) (l : list Payment) :
  ~ In id (map ID l) -> filter (matches (SelID id)) l = [].
Proof.
  induction l as [|d l IH]; [reflexivity|].
  cbn [map In filter]. intros H.
  destruct (matches (SelID id) d) eqn:M.
  - apply String.eqb_eq in M. tauto.
  - apply IH. tauto.
Qed.

Lemma stored_unique (id : string) (db : Database) :
  uniqueIDs db -> (stored id db <= 1)%nat.
Proof.
  unfold uniqueIDs, stored.
  induction (docs db) as [|d l IH]; cbn [map filter]; [cbn; lia|].
  intros H. inversion H as [|x xs Hnot Hnd]; subst.
  destruct (matches (SelID id) d) eqn:M; [|auto].
  apply String.eqb_eq in M. subst id.
  rewrite (filter_absent _ _ Hnot). cbn. lia.
Qed.

Lemma stored_present_unique (id : string) (db : Database) :
  uniqueIDs db -> In id (map ID (docs db)) -> stored id db = 1%nat.
Proof.
  intros U H. apply stored_In in H. pose proof (stored_unique id db U). lia.
Qed.

(** ** The lifecycle operations, run on a state *)

Lemma count_is_zero (n : nat) : (Z.of_nat n =? 0) = Nat.eqb n 0.
Proof.
  destruct (Z.eqb_spec (Z.of_nat n) 0), (Nat.eqb_spec n 0);
    first [reflexivity | lia].
Qed.

Lemma count_is_positive (n : nat) : (Z.of_nat n >? 0) = negb (Nat.eqb n 0).
Proof.
  destruct (Z.gtb_spec (Z.of_nat n) 0), (Nat.eqb_spec n 0);
    first [reflexivity | lia].
Qed.

Lemma count_is_many (n : nat) : (Z.of_nat n >? 1) = Nat.ltb 1 n.
Proof.
  destruct (Z.gtb_spec (Z.of_nat n) 1), (Nat.ltb_spec 1 n);
    first [reflexivity | lia].
Qed.

Lemma run_modelCreatePaymentValidCheck (p : Payment) (db : Database) :
  runState (modelCreatePaymentValidCheck p) db =
  if String.eqb (ID p) ""
  then (Some (errorsNew
                "Cannot add a payment without a Payment ID specified"), db)
  else (if nextFails db then Some (driverError ErrUnreachable)
        else if Nat.eqb (stored (ID p) db) 0 then None
        else Some (errorsNew "A payment with this Payment ID already exists"),
        logged (CallCount (SelID (ID p))) db).
Proof.
  unfold modelCreatePaymentValidCheck, checkEmptyPaymentID.
  destruct (String.eqb (ID p) ""); [reflexivity|].
  rewrite run_bind, run_returnPaymentCount.
  destruct (nextFails db); [reflexivity|].
  rewrite count_is_positive.
  destruct (Nat.eqb (stored (ID p) db) 0); reflexivity.
Qed.

Lemma run_modelUpdatePaymentValidCheck (p : Payment) (db : Database) :
  runState (modelUpdatePaymentValidCheck p) db =
  if String.eqb (ID p) ""
  then (Some (errorsNew
                "Cannot update a payment without a Payment ID specified"), db)
  else (if nextFails db then Some (driverError ErrUnreachable)
        else if Nat.eqb (stored (ID p) db) 0
        then Some (errorsNew "A payment with this Payment ID does not exist")
        else None,
        logged (CallCount (SelID (ID p))) db).
Proof.
  unfold modelUpdatePaymentValidCheck, checkEmptyPaymentID.
  destruct (String.eqb (ID p) ""); [reflexivity|].
  rewrite run_bind, run_returnPaymentCount.
  destruct (nextFails db); [reflexivity|].
  rewrite count_is_zero.
  destruct (Nat.eqb (stored (ID p) db) 0); reflexivity.
Qed.

Lemma run_modelDeletePaymentValidCheck (p : Payment) (db : Database) :
  runState (modelDeletePaymentValidCheck p) db =
  if String.eqb (ID p) ""
  then (Some (errorsNew
                "Cannot delete a payment without a Payment ID specified"), db)
  else (if nextFails db then Some (driverError ErrUnreachable)
        else if Nat.eqb (stored (ID p) db) 0
        then Some (errorsNew "A payment with this Payment ID doesn't exists")
        else None,
        logged (CallCount (SelID (ID p))) db).
Proof.
  unfold modelDeletePaymentValidCheck, checkEmptyPaymentID.
  destruct (String.eqb (ID p) ""); [reflexivity|].
  rewrite run_bind, run_returnPaymentCount.
  destruct (nextFails db); [reflexivity|].
  rewrite count_is_zero.
  destruct (Nat.eqb (stored (ID p) db) 0); reflexivity.
Qed.

Lemma run_modelGetPayment (p : Payment) (db : Database) :
  runState (modelGetPayment p) db =
  if String.eqb (ID p) ""
  then (-1, zeroPayment, Some (errorsNew "No Payment ID specified"), db)
  else
    let db1 := logged (CallCount (SelID (ID p))) db in
    if nextFails db
    then (-1, zeroPayment, Some (driverError ErrUnreachable), db1)
    else if Nat.eqb (stored (ID p) db) 0
    then (0, zeroPayment, Some (errorsNew "Payment not found"), db1)
    else if Nat.ltb 1 (stored (ID p) db)
    then (-1, zeroPayment,
          Some (errorsNew "More than one payment returned per ID"), db1)
    else (1, fst (fst (runState (One (SelID (ID p)) zeroPayment) db1)), None,
          logged (CallOne (SelID (ID p))) db1).
Proof.
  unfold modelGetPayment, checkEmptyPaymentID.
  destruct (String.eqb (ID p) ""); [reflexivity|].
  rewrite run_bind, run_returnPaymentCountAndQuery.
  destruct (nextFails db); [reflexivity|].
  cbv zeta. rewrite count_is_zero, count_is_many.
  destruct (Nat.eqb_spec (stored (ID p) db) 0) as [E|E];
    [rewrite E; reflexivity|].
  destruct (Nat.ltb_spec 1 (stored (ID p) db)); [reflexivity|].
  rewrite run_bind, run_One.
  replace (stored (ID p) db) with 1%nat by lia.
  destruct (nextFails _); [reflexivity|].
  destruct (filter _ _); reflexivity.
Qed.

(** ** The handlers, run on a state *)

Lemma logged_docs (c : StoreCall) (db : Database) :
  docs (logged c db) = docs db.
Proof. reflexivity. Qed.

Lemma logged_stored (id : string) (c : StoreCall) (db : Database) :
  stored id (logged c db) = stored id db.
Proof. reflexivity. Qed.

Lemma run_getPayment (id : string) (db : Database) :
  runState (getPayment id) db =
  if String.eqb id ""
  then (respondWithError StatusInternalServerError "No Payment ID specified",
        db)
  else
    let db1 := logged (CallCount (SelID id)) db in
    if nextFails db
    then (respondWithError StatusInternalServerError "no reachable servers",
          db1)
    else if Nat.eqb (stored id db) 0
    then (respondWithError StatusNotFound "Payment not found", db1)
    else if Nat.ltb 1 (stored id db)
    then (respondWithError StatusInternalServerError
            "More than one payment returned per ID", db1)
    else (respondWithJSON StatusOK
            (JSONPayment
               (fst (fst (runState (One (SelID id) zeroPayment) db1)))),
          logged (CallOne (SelID id)) db1).
Proof.
  unfold getPayment. rewrite run_bind, run_modelGetPayment.
  change (ID (PaymentWithID id)) with id.
  destruct (String.eqb id ""); [reflexivity|]. cbv zeta.
  destruct (nextFails db); [reflexivity|].
  destruct (Nat.eqb (stored id db) 0); [reflexivity|].
  destruct (Nat.ltb 1 (stored id db)); reflexivity.
Qed.

Lemma run_createPayment (hasID : bool) (decoded : Payment) (db : Database) :
  let p := fst (Decode (JSONObject hasID decoded) zeroPayment) in
  runState (createPayment (JSONObject hasID decoded)) db =
  if String.eqb (ID p) ""
  then (respondWithError StatusBadRequest
          "Cannot add a payment without a Payment ID specified", db)
  else
    let db1 := logged (CallCount (SelID (ID p))) db in
    if nextFails db
    then (respondWithError StatusBadRequest "no reachable servers", db1)
    else if Nat.eqb (stored (ID p) db) 0
    then
      if nextFails db1
      then (respondWithError StatusInternalServerError
              "no reachable servers", logged (CallInsert p) db1)
      else (respondWithJSON StatusCreated (JSONPayment p),
            mkDatabase (docs db ++ [asStored p]) (tl (faults db1))
                       (issued db1 ++ [CallInsert p]))
    else (respondWithError StatusBadRequest
            "A payment with this Payment ID already exists", db1).
Proof.
  intros p. unfold createPayment.
  change (Decode (JSONObject hasID decoded) zeroPayment) with (p, @None error).
  cbv iota beta.
  rewrite run_bind, run_modelCreatePaymentValidCheck.
  destruct (String.eqb (ID p) ""); [reflexivity|]. cbv zeta.
  destruct (nextFails db); [reflexivity|].
  destruct (Nat.eqb (stored (ID p) db) 0) eqn:E; [|reflexivity].
  unfold modelCreatePayment. rewrite run_bind, run_Insert.
  destruct (nextFails (logged _ db)); [reflexivity|].
  rewrite stored_existsb, logged_stored, E. reflexivity.
Qed.

Lemma run_updatePayment (id : string) (hasID : bool) (decoded : Payment)
      (db : Database) :
  let p := fst (Decode (JSONObject hasID decoded) (PaymentWithID id)) in
  runState (updatePayment id (JSONObject hasID decoded)) db =
  if String.eqb (ID p) ""
  then (respondWithError StatusNotFound
          "Cannot update a payment without a Payment ID specified", db)
  else
    let db1 := logged (CallCount (SelID (ID p))) db in
    if nextFails db
    then (respondWithError StatusNotFound "no reachable servers", db1)
    else if Nat.eqb (stored (ID p) db) 0
    then (respondWithError StatusNotFound
            "A payment with this Payment ID does not exist", db1)
    else
      if nextFails db1
      then (respondWithError StatusInternalServerError
              "no reachable servers", logged (CallUpdateId (ID p) p) db1)
      else (respondWithJSON StatusOK (JSONPayment p),
            mkDatabase (replaceFirst (SelID (ID p)) (asStored p) (docs db))
                       (tl (faults db1))
                       (issued db1 ++ [CallUpdateId (ID p) p])).
Proof.
  intros p. unfold updatePayment.
  change (Decode (JSONObject hasID decoded) (PaymentWithID id))
    with (p, @None error).
  cbv iota beta.
  rewrite run_bind, run_modelUpdatePaymentValidCheck.
  destruct (String.eqb (ID p) ""); [reflexivity|]. cbv zeta.
  destruct (nextFails db); [reflexivity|].
  destruct (Nat.eqb (stored (ID p) db) 0) eqn:E; [reflexivity|].
  unfold modelUpdatePayment. rewrite run_bind, run_UpdateId.
  destruct (nextFails (logged _ db)); [reflexivity|].
  rewrite stored_existsb, logged_stored, E. reflexivity.
Qed.

Lemma run_deletePayment (id : string) (db : Database) :
  runState (deletePayment id) db =
  if String.eqb id ""
  then (respondWithError StatusNotFound
          "Cannot delete a payment without a Payment ID specified", db)
  else
    let db1 := logged (CallCount (SelID id)) db in
    if nextFails db
    then (respondWithError StatusNotFound "no reachable servers", db1)
    else if Nat.eqb (stored id db) 0
    then (respondWithError StatusNotFound
            "A payment with this Payment ID doesn't exists", db1)
    else
      if nextFails db1
      then (respondWithError StatusInternalServerError
              "no reachable servers", logged (CallRemove (SelID id)) db1)
      else (respondWithJSON StatusOK (JSONMap "result" "success"),
            mkDatabase (removeFirst (SelID id) (docs db))
                       (tl (faults db1))
                       (issued db1 ++ [CallRemove (SelID id)])).
Proof.
  unfold deletePayment. rewrite run_bind, run_modelDeletePaymentValidCheck.
  change (ID (PaymentWithID id)) with id.
  destruct (String.eqb id ""); [reflexivity|]. cbv zeta.
  destruct (nextFails db); [reflexivity|].
  destruct (Nat.eqb (stored id db) 0); [reflexivity|].
  unfold modelDeletePayment. rewrite run_bind, run_Remove.
  change (ID (PaymentWithID id)) with id.
  destruct (nextFails (logged _ db)); reflexivity.
Qed.

Lemma run_getPayments (db : Database) :
  runState getPayments db =
  (if nextFails db
   then respondWithError StatusInternalServerError "no reachable servers"
   else respondWithJSON StatusOK
          (JSONPayments
             (mkPayments (SliceOf (docs db))
                (Links.mk "https://api.test.form3.tech/v1/payments"))),
   logged (CallAll SelAll) db).
Proof.
  unfold getPayments, modelGetPayments.
  rewrite !run_bind, run_All. cbv zeta.
  destruct (nextFails db); [reflexivity|].
  assert (F : filter (matches (Find SelAll)) (docs db) = docs db).
  { unfold Find. induction (docs db) as [|d l IH]; [reflexivity|].
    cbn [filter matches]. rewrite IH. reflexivity. }
  rewrite F. destruct (docs db); reflexivity.
Qed.

(** ** Store availability *)

Lemma answering_nextFails (db : Database) :
  answering db -> nextFails db = false.
Proof. unfold answering, nextFails. intros ->. reflexivity. Qed.

Lemma answering_logged (c : StoreCall) (db : Database) :
  answering db -> answering (logged c db).
Proof. unfold answering, logged. cbn. intros ->. reflexivity. Qed.

Lemma nonempty_eqb (id : string) : id <> "" -> String.eqb id "" = false.
Proof. intros H. destruct (String.eqb_spec id ""); congruence. Qed.

Lemma DeepEqual_spec (a b : Payment) : DeepEqual a b = true <-> a = b.
Proof.
  unfold DeepEqual. destruct (Payment_eq_dec a b); split; congruence.
Qed.

Lemma filter_stored_zero (id : string) (db : Database) :
  stored id db = 0%nat -> filter (matches (SelID id)) (docs db) = [].
Proof.
  unfold stored. destruct (filter _ _); [reflexivity | discriminate].
Qed.

Lemma matches_own_ID (p : Payment) : matches (SelID (ID p)) p = true.
Proof. apply String.eqb_refl. Qed.

(** ** Records as the store holds them *)

Lemma asStored_ID (p : Payment) : ID (asStored p) = ID p.
Proof. reflexivity. Qed.

Lemma matches_asStored (sel : Selector) (p : Payment) :
  matches sel (asStored p) = matches sel p.
Proof. destruct sel; reflexivity. Qed.

Lemma setSenderCharges_same (p : Payment) :
  setSenderCharges (SenderChargesOf p) p = p.
Proof.
  destruct p as [t i v o [a b [c s r rc] cu d e f n pi pp ps pt pd re ss st
                          sp]].
  reflexivity.
Qed.

Lemma asStored_not_nil (p : Payment) :
  SenderChargesOf p <> SliceNil -> asStored p = p.
Proof.
  intros H. unfold asStored.
  destruct (SenderChargesOf p) eqn:E; [contradiction|].
  cbn [nilToEmpty]. rewrite <- E. apply setSenderCharges_same.
Qed.

Lemma asStored_nil (p : Payment) :
  SenderChargesOf p = SliceNil -> asStored p <> p.
Proof.
  intros H E. apply (f_equal SenderChargesOf) in E.
  rewrite H in E. unfold asStored in E. rewrite H in E. discriminate.
Qed.

Lemma asStored_idempotent (p : Payment) : asStored (asStored p) = asStored p.
Proof.
  apply asStored_not_nil. unfold asStored.
  destruct (SenderChargesOf p); discriminate.
Qed.

(** ** Create *)

(** C1, as the code has it: creating a payment [p] with a non-empty
    identifier, in a store that answers and holds no record with that
    identifier, succeeds with status 201 and echoes [p]; a get of its
    identifier then succeeds with count 1 and returns [p] as the store holds
    it, that is [p] with every field unchanged except that a nil
    [SenderCharges] has become the empty slice.  The fetched payment is
    deep-equal to [p] exactly when the [SenderCharges] of [p] is not nil. *)
Theorem create_then_get_round_trip (p : Payment) (db : Database) :
  ID p <> "" -> stored (ID p) db = 0%nat -> answering db ->
  exists db1 db2 fetched,
    runState (createPayment (JSONObject true p)) db =
      (respondWithJSON StatusCreated (JSONPayment p), db1) /\
    docs db1 = (docs db ++ [asStored p])%list /\
    runState (modelGetPayment (PaymentWithID (ID p))) db1 =
      (1, fetched, None, db2) /\
    fetched = setSenderCharges (nilToEmpty (SenderChargesOf p)) p /\
    (DeepEqual p fetched = true <-> SenderChargesOf p <> SliceNil) /\
    evalState (getPayment (ID p)) db1 =
      respondWithJSON StatusOK (JSONPayment fetched).
Proof.
  intros Hid Hnew Hup.
  pose proof (run_createPayment true p db) as Hc. cbn zeta in Hc.
  change (fst (Decode (JSONObject true p) zeroPayment)) with p in Hc.
  rewrite (nonempty_eqb _ Hid), (answering_nextFails _ Hup), Hnew in Hc.
  rewrite (answering_nextFails _ (answering_logged _ _ Hup)) in Hc.
  cbn [Nat.eqb] in Hc.
  set (db1 := mkDatabase (docs db ++ [asStored p]) _ _) in Hc.
  assert (Hup1 : answering db1).
  { unfold answering, db1. cbn. rewrite Hup. reflexivity. }
  assert (Hf : filter (matches (SelID (ID p))) (docs db1) = [asStored p]).
  { unfold db1. cbn [docs]. rewrite filter_app, (filter_stored_zero _ _ Hnew).
    cbn [filter app]. rewrite matches_asStored, matches_own_ID. reflexivity. }
  assert (Hone : stored (ID p) db1 = 1%nat) by (unfold stored; now rewrite Hf).
  pose proof (run_modelGetPayment (PaymentWithID (ID p)) db1) as Hg.
  pose proof (run_getPayment (ID p) db1) as Hh.
  change (ID (PaymentWithID (ID p))) with (ID p) in Hg.
  cbn zeta in Hg, Hh.
  rewrite (nonempty_eqb _ Hid), (answering_nextFails _ Hup1), Hone in Hg, Hh.
  cbn [Nat.eqb Nat.ltb Nat.leb] in Hg, Hh.
  rewrite run_One in Hg, Hh.
  rewrite (answering_nextFails _ (answering_logged _ _ Hup1)) in Hg, Hh.
  rewrite logged_docs, Hf in Hg, Hh. cbn [fst] in Hg, Hh.
  eexists db1, _, (asStored p).
  split; [exact Hc|]. split; [reflexivity|]. split; [exact Hg|].
  split; [reflexivity|]. split.
  - rewrite DeepEqual_spec. split.
    + intros E Hnil. symmetry in E. exact (asStored_nil p Hnil E).
    + intros Hnn. symmetry. apply asStored_not_nil, Hnn.
  - unfold evalState. rewrite Hh. reflexivity.
Qed.

Lemma create_then_get_round_trip_witness :
  exists db1 db2 fetched,
    runState (createPayment (JSONObject true payload)) (storeOf []) =
      (respondWithJSON StatusCreated (JSONPayment payload), db1) /\
    docs db1 = (docs (storeOf []) ++ [asStored payload])%list /\
    runState (modelGetPayment (PaymentWithID (ID payload))) db1 =
      (1, fetched, None, db2) /\
    fetched =
      setSenderCharges (nilToEmpty (SenderChargesOf payload)) payload /\
    (DeepEqual payload fetched = true <->
     SenderChargesOf payload <> SliceNil) /\
    evalState (getPayment (ID payload)) db1 =
      respondWithJSON StatusOK (JSONPayment fetched).
Proof.
  apply (create_then_get_round_trip payload (storeOf [])).
  - discriminate.
  - reflexivity.
  - reflexivity.
Defined.

(** C1 as stated fails: a payment without sender charges (a nil slice) is
    created with status 201, and the get that follows returns it with an
    empty, non-nil slice, which is not deep-equal to the payment sent. *)
Lemma create_then_get_nil_charges_differ :
  let p := PaymentWithID "4ee3a8d8-ca7b-4290-a52c-dd5b6165ec43" in
  let db1 := execState (createPayment (JSONObject true p)) (storeOf []) in
  ID p <> "" /\ stored (ID p) (storeOf []) = 0%nat /\
  code (evalState (createPayment (JSONObject true p)) (storeOf [])) =
    StatusCreated /\
  exists fetched,
    evalState (getPayment (ID p)) db1 =
      respondWithJSON StatusOK (JSONPayment fetched) /\
    DeepEqual p fetched = false.
Proof.
  cbv zeta. split; [discriminate|]. split; [reflexivity|].
  split; [reflexivity|]. eexists. split; reflexivity.
Qed.

(** C2: creating a payment whose non-empty identifier the store already
    holds (the count query answers a count above zero) fails: the validity
    check returns the already-exists error, the handler answers 400, and the
    only call sent to the store is the count query, so the stored records
    are the same before and after. *)
Theorem create_existing_rejected (p : Payment) (db : Database) :
  ID p <> "" -> (0 < stored (ID p) db)%nat -> nextFails db = false ->
  evalState (modelCreatePaymentValidCheck p) db =
    Some (errorsNew "A payment with this Payment ID already exists") /\
  runState (createPayment (JSONObject true p)) db =
    (respondWithError StatusBadRequest
       "A payment with this Payment ID already exists",
     logged (CallCount (SelID (ID p))) db) /\
  docs (execState (createPayment (JSONObject true p)) db) = docs db.
Proof.
  intros Hid Hold Hup.
  assert (E : Nat.eqb (stored (ID p) db) 0 = false)
    by (apply Nat.eqb_neq; lia).
  pose proof (run_createPayment true p db) as Hc. cbn zeta in Hc.
  change (fst (Decode (JSONObject true p) zeroPayment)) with p in Hc.
  rewrite (nonempty_eqb _ Hid), Hup, E in Hc.
  split; [|split].
  - unfold evalState. rewrite run_modelCreatePaymentValidCheck.
    rewrite (nonempty_eqb _ Hid), Hup, E. reflexivity.
  - exact Hc.
  - unfold execState. rewrite Hc. reflexivity.
Qed.

Lemma create_existing_rejected_witness :
  evalState (modelCreatePaymentValidCheck payload) (storeOf [payload]) =
    Some (errorsNew "A payment with this Payment ID already exists") /\
  runState (createPayment (JSONObject true payload)) (storeOf [payload]) =
    (respondWithError StatusBadRequest
       "A payment with this Payment ID already exists",
     logged (CallCount (SelID (ID payload))) (storeOf [payload])) /\
  docs (execState (createPayment (JSONObject true payload))
          (storeOf [payload])) = docs (storeOf [payload]).
Proof.
  apply (create_existing_rejected payload (storeOf [payload])).
  - discriminate.
  - cbn. lia.
  - reflexivity.
Defined.

(** ** Update *)

Lemma filter_replaceFirst (sel : Selector) (new : Payment)
      (l : list Payment) :
  matches sel new = true ->
  filter (matches sel) (replaceFirst sel new l) =
  match filter (matches sel) l with
  | [] => []
  | _ :: rest => new :: rest
  end.
Proof.
  intros Hnew. induction l as [|d l IH]; [reflexivity|].
  cbn [replaceFirst filter]. destruct (matches sel d) eqn:M.
  - cbn [filter]. rewrite Hnew. reflexivity.
  - cbn [filter]. rewrite M. exact IH.
Qed.

Lemma replaceFirst_others (sel : Selector) (new d : Payment)
      (l : list Payment) :
  matches sel d = false -> In d l -> In d (replaceFirst sel new l).
Proof.
  intros Hd. induction l as [|e l IH]; [tauto|].
  cbn [replaceFirst In]. intros [->|Hin].
  - rewrite Hd. left. reflexivity.
  - destruct (matches sel e); right; auto.
Qed.

Lemma replaceFirst_map_ID (new : Payment) (l : list Payment) :
  map ID (replaceFirst (SelID (ID new)) new l) = map ID l.
Proof.
  induction l as [|d l IH]; [reflexivity|].
  cbn [replaceFirst map]. destruct (matches (SelID (ID new)) d) eqn:M.
  - apply String.eqb_eq in M. cbn [map]. rewrite M. reflexivity.
  - cbn [map]. rewrite IH. reflexivity.
Qed.

(** C3, as the code has it: updating with a payment [p'] whose non-empty
    identifier is held by a store that answers and keeps at most one record
    per identifier succeeds with status 200 and echoes [p']; the whole
    record is replaced, whatever it was before: afterwards the only stored
    record with that identifier, and the payment a get of the identifier
    returns, is [p'] as the store holds it, that is [p'] with every field
    unchanged except that a nil [SenderCharges] has become the empty slice.
    The fetched payment equals [p'] exactly when the [SenderCharges] of [p']
    is not nil. *)
Theorem update_replaces_whole_record (path : string) (p' : Payment)
        (db : Database) :
  ID p' <> "" -> uniqueIDs db -> In (ID p') (map ID (docs db)) ->
  answering db ->
  exists db1 db2 fetched,
    runState (updatePayment path (JSONObject true p')) db =
      (respondWithJSON StatusOK (JSONPayment p'), db1) /\
    docs db1 = replaceFirst (SelID (ID p')) fetched (docs db) /\
    filter (matches (SelID (ID p'))) (docs db1) = [fetched] /\
    runState (modelGetPayment (PaymentWithID (ID p'))) db1 =
      (1, fetched, None, db2) /\
    fetched = setSenderCharges (nilToEmpty (SenderChargesOf p')) p' /\
    (DeepEqual p' fetched = true <-> SenderChargesOf p' <> SliceNil) /\
    evalState (getPayment (ID p')) db1 =
      respondWithJSON StatusOK (JSONPayment fetched).
Proof.
  intros Hid Huniq Hin Hup.
  pose proof (stored_present_unique _ _ Huniq Hin) as Hone.
  pose proof (run_updatePayment path true p' db) as Hu. cbn zeta in Hu.
  change (fst (Decode (JSONObject true p') (PaymentWithID path)))
    with p' in Hu.
  rewrite (nonempty_eqb _ Hid), (answering_nextFails _ Hup), Hone in Hu.
  rewrite (answering_nextFails _ (answering_logged _ _ Hup)) in Hu.
  cbn [Nat.eqb] in Hu.
  set (db1 := mkDatabase (replaceFirst _ _ _) _ _) in Hu.
  assert (Hup1 : answering db1).
  { unfold answering, db1. cbn. rewrite Hup. reflexivity. }
  assert (Hm : matches (SelID (ID p')) (asStored p') = true)
    by (rewrite matches_asStored; apply matches_own_ID).
  assert (Hf : filter (matches (SelID (ID p'))) (docs db1) = [asStored p']).
  { unfold db1. cbn [docs]. rewrite (filter_replaceFirst _ _ _ Hm).
    unfold stored in Hone.
    destruct (filter _ (docs db)) as [|d [|e rest]];
      [discriminate | reflexivity | discriminate]. }
  assert (Hone1 : stored (ID p') db1 = 1%nat)
    by (unfold stored; now rewrite Hf).
  pose proof (run_modelGetPayment (PaymentWithID (ID p')) db1) as Hg.
  pose proof (run_getPayment (ID p') db1) as Hh.
  change (ID (PaymentWithID (ID p'))) with (ID p') in Hg.
  cbn zeta in Hg, Hh.
  rewrite (nonempty_eqb _ Hid), (answering_nextFails _ Hup1), Hone1 in Hg, Hh.
  cbn [Nat.eqb Nat.ltb Nat.leb] in Hg, Hh.
  rewrite run_One in Hg, Hh.
  rewrite (answering_nextFails _ (answering_logged _ _ Hup1)) in Hg, Hh.
  rewrite logged_docs, Hf in Hg, Hh. cbn [fst] in Hg, Hh.
  eexists db1, _, (asStored p').
  split; [exact Hu|]. split; [reflexivity|]. split; [exact Hf|].
  split; [exact Hg|]. split; [reflexivity|]. split.
  - rewrite DeepEqual_spec. split.
    + intros E Hnil. symmetry in E. exact (asStored_nil p' Hnil E).
    + intros Hnn. symmetry. apply asStored_not_nil, Hnn.
  - unfold evalState. rewrite Hh. reflexivity.
Qed.

Lemma update_replaces_whole_record_witness :
  exists db1 db2 fetched,
    runState (updatePayment (ID payload2) (JSONObject true payload2))
             (storeOf [payload]) =
      (respondWithJSON StatusOK (JSONPayment payload2), db1) /\
    docs db1 = replaceFirst (SelID (ID payload2)) fetched
                            (docs (storeOf [payload])) /\
    filter (matches (SelID (ID payload2))) (docs db1) = [fetched] /\
    runState (modelGetPayment (PaymentWithID (ID payload2))) db1 =
      (1, fetched, None, db2) /\
    fetched =
      setSenderCharges (nilToEmpty (SenderChargesOf payload2)) payload2 /\
    (DeepEqual payload2 fetched = true <->
     SenderChargesOf payload2 <> SliceNil) /\
    evalState (getPayment (ID payload2)) db1 =
      respondWithJSON StatusOK (JSONPayment fetched).
Proof.
  apply (update_replaces_whole_record (ID payload2) payload2
           (storeOf [payload])).
  - discriminate.
  - unfold uniqueIDs. cbn. repeat constructor. intros [].
  - left. reflexivity.
  - reflexivity.
Defined.

(** C3 as stated fails: after an update with a payment without sender
    charges (a nil slice), which answers 200, the get of the identifier
    returns a payment with an empty, non-nil slice, which is not equal to
    the update payload. *)
Lemma update_then_get_nil_charges_differ :
  let p' := PaymentWithID (ID payload) in
  let db1 := execState (updatePayment (ID payload) (JSONObject true p'))
                       (storeOf [payload]) in
  code (evalState (updatePayment (ID payload) (JSONObject true p'))
                  (storeOf [payload])) = StatusOK /\
  exists fetched,
    evalState (getPayment (ID p')) db1 =
      respondWithJSON StatusOK (JSONPayment fetched) /\
    fetched <> p' /\ DeepEqual p' fetched = false.
Proof.
  cbv zeta. split; [reflexivity|]. eexists.
  split; [reflexivity|]. split; [discriminate | reflexivity].
Qed.

(** ** Get *)

(** C6: for a non-empty identifier and a store that answers, the get
    operation fails with "Payment not found" exactly when the store counts
    no record with the identifier, fails with "More than one payment
    returned per ID" exactly when it counts more than one, and otherwise
    returns count 1, no error and the single matching record. *)
Theorem get_outcome_by_count (id : string) (db : Database) :
  id <> "" -> answering db ->
  let r := evalState (modelGetPayment (PaymentWithID id)) db in
  (snd r = Some (errorsNew "Payment not found") <-> stored id db = 0%nat) /\
  (snd r = Some (errorsNew "More than one payment returned per ID") <->
   (1 < stored id db)%nat) /\
  (stored id db <> 0%nat -> ~ (1 < stored id db)%nat ->
   exists d, filter (matches (SelID id)) (docs db) = [d] /\
             r = (1, d, None)).
Proof.
  intros Hid Hup r. subst r. unfold evalState.
  rewrite run_modelGetPayment.
  change (ID (PaymentWithID id)) with id. cbv zeta.
  rewrite (nonempty_eqb _ Hid), (answering_nextFails _ Hup).
  destruct (Nat.eqb_spec (stored id db) 0) as [E0|E0].
  { cbn [fst snd]. repeat split; intros; try congruence; try lia. }
  destruct (Nat.ltb_spec 1 (stored id db)) as [E1|E1].
  { cbn [fst snd]. repeat split; intros; try congruence; try lia. }
  rewrite run_One, (answering_nextFails _ (answering_logged _ _ Hup)).
  rewrite logged_docs. cbn [fst snd].
  repeat split; intros; try congruence; try lia.
  unfold stored in E0, E1.
  destruct (filter _ (docs db)) as [|d [|e rest]]; cbn in E0, E1;
    [congruence | | lia].
  exists d. split; reflexivity.
Qed.

Lemma get_outcome_by_count_witness :
  let r := evalState (modelGetPayment (PaymentWithID (ID payload)))
                     (storeOf [payload]) in
  (snd r = Some (errorsNew "Payment not found") <->
   stored (ID payload) (storeOf [payload]) = 0%nat) /\
  (snd r = Some (errorsNew "More than one payment returned per ID") <->
   (1 < stored (ID payload) (storeOf [payload]))%nat) /\
  (stored (ID payload) (storeOf [payload]) <> 0%nat ->
   ~ (1 < stored (ID payload) (storeOf [payload]))%nat ->
   exists d,
     filter (matches (SelID (ID payload))) (docs (storeOf [payload])) = [d] /\
     r = (1, d, None)).
Proof.
  apply (get_outcome_by_count (ID payload) (storeOf [payload])).
  - discriminate.
  - reflexivity.
Defined.

Lemma matchesVar_nonempty (id : string) : matchesVar id = true -> id <> "".
Proof. intros H ->. discriminate. Qed.

(** C4: dispatched through the router, a get with an empty identifier is
    answered 404, the status of an identifier without a stored record; more
    than one match and a failure of the count query are answered 500, as the
    claim says.  A store error of the fetch that follows a count of one is
    not: [modelGetPayment] drops it and the handler answers 200 with the
    zero payment, where the claim has 500. *)
Theorem get_route_status_mapping (id : string) (db : Database) :
  code (evalState (initializeRoutes (GET_payment "")) db) = StatusNotFound /\
  (matchesVar id = true -> nextFails db = false -> stored id db = 0%nat ->
   evalState (initializeRoutes (GET_payment id)) db =
     respondWithError StatusNotFound "Payment not found") /\
  (matchesVar id = true -> nextFails db = false -> (1 < stored id db)%nat ->
   evalState (initializeRoutes (GET_payment id)) db =
     respondWithError StatusInternalServerError
       "More than one payment returned per ID") /\
  (matchesVar id = true -> nextFails db = true ->
   evalState (initializeRoutes (GET_payment id)) db =
     respondWithError StatusInternalServerError
       (Error (driverError ErrUnreachable))) /\
  (matchesVar id = true -> nextFails db = false -> stored id db = 1%nat ->
   nextFails (logged (CallCount (SelID id)) db) = true ->
   evalState (initializeRoutes (GET_payment id)) db =
     respondWithJSON StatusOK (JSONPayment zeroPayment)).
Proof.
  split; [reflexivity|]. cbn [initializeRoutes]. unfold evalState.
  split; [|split; [|split]].
  - intros Hm Hup E. rewrite Hm, run_getPayment. cbv zeta.
    rewrite (nonempty_eqb _ (matchesVar_nonempty _ Hm)), Hup, E. reflexivity.
  - intros Hm Hup E. rewrite Hm, run_getPayment. cbv zeta.
    rewrite (nonempty_eqb _ (matchesVar_nonempty _ Hm)), Hup.
    destruct (Nat.eqb_spec (stored id db) 0); [lia|].
    destruct (Nat.ltb_spec 1 (stored id db)); [reflexivity | lia].
  - intros Hm Hdown. rewrite Hm, run_getPayment. cbv zeta.
    rewrite (nonempty_eqb _ (matchesVar_nonempty _ Hm)), Hdown. reflexivity.
  - intros Hm Hup E Hdown. rewrite Hm, run_getPayment. cbv zeta.
    rewrite (nonempty_eqb _ (matchesVar_nonempty _ Hm)), Hup, E.
    cbn [Nat.eqb Nat.ltb Nat.leb]. rewrite run_One, Hdown. reflexivity.
Qed.

Lemma get_route_status_mapping_witness :
  code (evalState (initializeRoutes (GET_payment "")) (storeOf [payload])) =
    StatusNotFound /\
  evalState (initializeRoutes (GET_payment "11")) (storeOf [payload]) =
    respondWithError StatusNotFound "Payment not found" /\
  evalState (initializeRoutes (GET_payment (ID payload)))
            (storeOf [payload; payload2]) =
    respondWithError StatusInternalServerError
      "More than one payment returned per ID" /\
  evalState (initializeRoutes (GET_payment "11"))
            (mkDatabase [payload] [true] []) =
    respondWithError StatusInternalServerError
      (Error (driverError ErrUnreachable)) /\
  evalState (initializeRoutes (GET_payment (ID payload)))
            (mkDatabase [payload] [false; true] []) =
    respondWithJSON StatusOK (JSONPayment zeroPayment).
Proof.
  split; [|split; [|split; [|split]]].
  - apply (get_route_status_mapping "" (storeOf [payload])).
  - apply (get_route_status_mapping "11" (storeOf [payload]));
      reflexivity.
  - apply (get_route_status_mapping (ID payload)
             (storeOf [payload; payload2]));
      [reflexivity | reflexivity | cbn; lia].
  - apply (get_route_status_mapping "11" (mkDatabase [payload] [true] []));
      reflexivity.
  - apply (get_route_status_mapping (ID payload)
             (mkDatabase [payload] [false; true] []));
      reflexivity.
Defined.

(** C5: the create handler answers the empty identifier and an identifier
    the store already holds with 400, and a store failure of the insert with
    500, as the claim says.  A store failure of the existence count query is
    not answered 500: the validity check hands the driver's error back and
    the handler answers it with 400, like a validation failure. *)
Theorem createPayment_status_mapping (p : Payment) (db : Database) :
  (ID p = "" ->
   evalState (createPayment (JSONObject true p)) db =
     respondWithError StatusBadRequest
       "Cannot add a payment without a Payment ID specified") /\
  (ID p <> "" -> nextFails db = false -> (0 < stored (ID p) db)%nat ->
   evalState (createPayment (JSONObject true p)) db =
     respondWithError StatusBadRequest
       "A payment with this Payment ID already exists") /\
  (ID p <> "" -> nextFails db = true ->
   evalState (createPayment (JSONObject true p)) db =
     respondWithError StatusBadRequest (Error (driverError ErrUnreachable))) /\
  (ID p <> "" -> nextFails db = false -> stored (ID p) db = 0%nat ->
   nextFails (logged (CallCount (SelID (ID p))) db) = true ->
   evalState (createPayment (JSONObject true p)) db =
     respondWithError StatusInternalServerError
       (Error (driverError ErrUnreachable))).
Proof.
  unfold evalState.
  pose proof (run_createPayment true p db) as Hc. cbn zeta in Hc.
  change (fst (Decode (JSONObject true p) zeroPayment)) with p in Hc.
  rewrite Hc. clear Hc. repeat split.
  - intros ->. reflexivity.
  - intros Hid Hup E. rewrite (nonempty_eqb _ Hid), Hup.
    destruct (Nat.eqb_spec (stored (ID p) db) 0); [lia | reflexivity].
  - intros Hid Hdown. rewrite (nonempty_eqb _ Hid), Hdown. reflexivity.
  - intros Hid Hup E Hdown. rewrite (nonempty_eqb _ Hid), Hup, E, Hdown.
    reflexivity.
Qed.

Lemma createPayment_status_mapping_witness :
  evalState (createPayment (JSONObject true zeroPayment)) (storeOf []) =
    respondWithError StatusBadRequest
      "Cannot add a payment without a Payment ID specified" /\
  evalState (createPayment (JSONObject true payload)) (storeOf [payload]) =
    respondWithError StatusBadRequest
      "A payment with this Payment ID already exists" /\
  evalState (createPayment (JSONObject true payload))
            (mkDatabase [] [true] []) =
    respondWithError StatusBadRequest (Error (driverError ErrUnreachable)) /\
  evalState (createPayment (JSONObject true payload))
            (mkDatabase [] [false; true] []) =
    respondWithError StatusInternalServerError
      (Error (driverError ErrUnreachable)).
Proof.
  split; [|split; [|split]].
  - apply (createPayment_status_mapping zeroPayment (storeOf [])).
    reflexivity.
  - apply (createPayment_status_mapping payload (storeOf [payload]));
      [discriminate | reflexivity | cbn; lia].
  - apply (createPayment_status_mapping payload (mkDatabase [] [true] []));
      [discriminate | reflexivity].
  - apply (createPayment_status_mapping payload
             (mkDatabase [] [false; true] []));
      [discriminate | reflexivity | reflexivity | reflexivity].
Defined.

(** The failing input of C5: a create whose existence count query fails
    is answered with 400 and the driver's message, not with 500. *)
Lemma createPayment_count_failure_is_400 :
  evalState (createPayment (JSONObject true payload))
            (mkDatabase [] [true] []) =
    respondWithError StatusBadRequest "no reachable servers" /\
  code (evalState (createPayment (JSONObject true payload))
                  (mkDatabase [] [true] [])) <> StatusInternalServerError.
Proof. split. reflexivity. discriminate. Qed.

(** ** Delete *)

Lemma filter_removeFirst (sel : Selector) (l : list Payment) :
  filter (matches sel) (removeFirst sel l) = tl (filter (matches sel) l).
Proof.
  induction l as [|d l IH]; [reflexivity|].
  cbn [removeFirst filter]. destruct (matches sel d) eqn:M.
  - reflexivity.
  - cbn [filter]. rewrite M. exact IH.
Qed.

(** C7: deleting a non-empty identifier held by a store that answers and
    keeps at most one record per identifier succeeds with status 200; the
    get that follows fails with "Payment not found" (404), and a second
    delete fails with the no-such-payment error (404). *)
Theorem delete_then_absent (id : string) (db : Database) :
  id <> "" -> uniqueIDs db -> In id (map ID (docs db)) -> answering db ->
  exists db1 db2,
    runState (deletePayment id) db =
      (respondWithJSON StatusOK (JSONMap "result" "success"), db1) /\
    docs db1 = removeFirst (SelID id) (docs db) /\
    runState (modelGetPayment (PaymentWithID id)) db1 =
      (0, zeroPayment, Some (errorsNew "Payment not found"), db2) /\
    evalState (getPayment id) db1 =
      respondWithError StatusNotFound "Payment not found" /\
    evalState (modelDeletePaymentValidCheck (PaymentWithID id)) db2 =
      Some (errorsNew "A payment with this Payment ID doesn't exists") /\
    evalState (deletePayment id) db2 =
      respondWithError StatusNotFound
        "A payment with this Payment ID doesn't exists" /\
    docs (execState (deletePayment id) db2) = docs db1.
Proof.
  intros Hid Huniq Hin Hup.
  pose proof (stored_present_unique _ _ Huniq Hin) as Hone.
  pose proof (run_deletePayment id db) as Hd. cbn zeta in Hd.
  rewrite (nonempty_eqb _ Hid), (answering_nextFails _ Hup), Hone in Hd.
  rewrite (answering_nextFails _ (answering_logged _ _ Hup)) in Hd.
  cbn [Nat.eqb] in Hd.
  set (db1 := mkDatabase (removeFirst _ _) _ _) in Hd.
  assert (Hup1 : answering db1).
  { unfold answering, db1. cbn. rewrite Hup. reflexivity. }
  assert (Hzero : stored id db1 = 0%nat).
  { unfold stored, db1. cbn [docs]. rewrite filter_removeFirst.
    unfold stored in Hone.
    destruct (filter _ (docs db)) as [|d [|e rest]];
      [discriminate | reflexivity | discriminate]. }
  set (db2 := logged (CallCount (SelID id)) db1).
  assert (Hup2 : answering db2) by (apply answering_logged; exact Hup1).
  assert (Hzero2 : stored id db2 = 0%nat) by exact Hzero.
  exists db1, db2. split; [exact Hd|]. split; [reflexivity|].
  split; [|split; [|split; [|split]]].
  - rewrite run_modelGetPayment. change (ID (PaymentWithID id)) with id.
    cbv zeta. rewrite (nonempty_eqb _ Hid), (answering_nextFails _ Hup1).
    rewrite Hzero. reflexivity.
  - unfold evalState. rewrite run_getPayment. cbv zeta.
    rewrite (nonempty_eqb _ Hid), (answering_nextFails _ Hup1), Hzero.
    reflexivity.
  - unfold evalState. rewrite run_modelDeletePaymentValidCheck.
    change (ID (PaymentWithID id)) with id.
    rewrite (nonempty_eqb _ Hid), (answering_nextFails _ Hup2), Hzero2.
    reflexivity.
  - unfold evalState. rewrite run_deletePayment. cbv zeta.
    rewrite (nonempty_eqb _ Hid), (answering_nextFails _ Hup2), Hzero2.
    reflexivity.
  - unfold execState. rewrite run_deletePayment. cbv zeta.
    rewrite (nonempty_eqb _ Hid), (answering_nextFails _ Hup2), Hzero2.
    reflexivity.
Qed.

Lemma delete_then_absent_witness :
  exists db1 db2,
    runState (deletePayment (ID payload)) (storeOf [payload]) =
      (respondWithJSON StatusOK (JSONMap "result" "success"), db1) /\
    docs db1 = removeFirst (SelID (ID payload)) (docs (storeOf [payload])) /\
    runState (modelGetPayment (PaymentWithID (ID payload))) db1 =
      (0, zeroPayment, Some (errorsNew "Payment not found"), db2) /\
    evalState (getPayment (ID payload)) db1 =
      respondWithError StatusNotFound "Payment not found" /\
    evalState (modelDeletePaymentValidCheck (PaymentWithID (ID payload)))
              db2 =
      Some (errorsNew "A payment with this Payment ID doesn't exists") /\
    evalState (deletePayment (ID payload)) db2 =
      respondWithError StatusNotFound
        "A payment with this Payment ID doesn't exists" /\
    docs (execState (deletePayment (ID payload)) db2) = docs db1.
Proof.
  apply (delete_then_absent (ID payload) (storeOf [payload])).
  - discriminate.
  - unfold uniqueIDs. cbn. repeat constructor. intros [].
  - left. reflexivity.
  - reflexivity.
Defined.

(** ** List *)

(** C8: when the store answers, the list handler succeeds with status 200
    and a collection whose link is the constant
    "https://api.test.form3.tech/v1/payments" and whose data is the sequence
    of stored records, never the nil slice; for a store without records the
    data is the empty sequence. *)
Theorem list_link_and_empty_data (db : Database) :
  nextFails db = false ->
  exists ps,
    evalState getPayments db = respondWithJSON StatusOK (JSONPayments ps) /\
    Links.Self (Links ps) = "https://api.test.form3.tech/v1/payments" /\
    P ps = SliceOf (docs db) /\
    P ps <> SliceNil /\
    (docs db = [] -> P ps = SliceOf []).
Proof.
  intros Hup. unfold evalState. rewrite run_getPayments, Hup. cbn [fst].
  eexists. split; [reflexivity|]. cbn.
  repeat split; [discriminate | intros ->; reflexivity].
Qed.

Lemma list_link_and_empty_data_witness :
  exists ps,
    evalState getPayments (storeOf []) =
      respondWithJSON StatusOK (JSONPayments ps) /\
    Links.Self (Links ps) = "https://api.test.form3.tech/v1/payments" /\
    P ps = SliceOf (docs (storeOf [])) /\
    P ps <> SliceNil /\
    (docs (storeOf []) = [] -> P ps = SliceOf []).
Proof.
  apply (list_link_and_empty_data (storeOf [])). reflexivity.
Defined.

(** ** Empty identifiers *)

(** C9: with an empty identifier, get, create, update and delete fail
    with the state of the store session returned as it was: no call is added
    to the log of issued store calls, and the stored records are the same.
    This holds for the lifecycle functions and for the handlers above
    them. *)
Theorem empty_id_fails_before_store (p : Payment) (path : string)
        (db : Database) :
  ID p = "" ->
  runState (modelGetPayment p) db =
    (-1, zeroPayment, Some (errorsNew "No Payment ID specified"), db) /\
  runState (modelCreatePaymentValidCheck p) db =
    (Some (errorsNew "Cannot add a payment without a Payment ID specified"),
     db) /\
  runState (modelUpdatePaymentValidCheck p) db =
    (Some (errorsNew
             "Cannot update a payment without a Payment ID specified"),
     db) /\
  runState (modelDeletePaymentValidCheck p) db =
    (Some (errorsNew
             "Cannot delete a payment without a Payment ID specified"),
     db) /\
  runState (getPayment (ID p)) db =
    (respondWithError StatusInternalServerError "No Payment ID specified",
     db) /\
  runState (createPayment (JSONObject true p)) db =
    (respondWithError StatusBadRequest
       "Cannot add a payment without a Payment ID specified", db) /\
  runState (updatePayment path (JSONObject true p)) db =
    (respondWithError StatusNotFound
       "Cannot update a payment without a Payment ID specified", db) /\
  runState (deletePayment (ID p)) db =
    (respondWithError StatusNotFound
       "Cannot delete a payment without a Payment ID specified", db).
Proof.
  intros Hid.
  rewrite run_modelGetPayment, run_modelCreatePaymentValidCheck,
    run_modelUpdatePaymentValidCheck, run_modelDeletePaymentValidCheck,
    run_getPayment, run_deletePayment.
  pose proof (run_createPayment true p db) as Hc.
  pose proof (run_updatePayment path true p db) as Hu.
  cbn zeta in Hc, Hu.
  change (fst (Decode (JSONObject true p) zeroPayment)) with p in Hc.
  change (fst (Decode (JSONObject true p) (PaymentWithID path)))
    with p in Hu.
  rewrite Hc, Hu, Hid. cbn [String.eqb].
  repeat split.
Qed.

Lemma empty_id_fails_before_store_witness :
  let p := setID "" payload in
  let path := ID payload in
  let db := storeOf [payload] in
  runState (modelGetPayment p) db =
    (-1, zeroPayment, Some (errorsNew "No Payment ID specified"), db) /\
  runState (modelCreatePaymentValidCheck p) db =
    (Some (errorsNew "Cannot add a payment without a Payment ID specified"),
     db) /\
  runState (modelUpdatePaymentValidCheck p) db =
    (Some (errorsNew
             "Cannot update a payment without a Payment ID specified"),
     db) /\
  runState (modelDeletePaymentValidCheck p) db =
    (Some (errorsNew
             "Cannot delete a payment without a Payment ID specified"),
     db) /\
  runState (getPayment (ID p)) db =
    (respondWithError StatusInternalServerError "No Payment ID specified",
     db) /\
  runState (createPayment (JSONObject true p)) db =
    (respondWithError StatusBadRequest
       "Cannot add a payment without a Payment ID specified", db) /\
  runState (updatePayment path (JSONObject true p)) db =
    (respondWithError StatusNotFound
       "Cannot update a payment without a Payment ID specified", db) /\
  runState (deletePayment (ID p)) db =
    (respondWithError StatusNotFound
       "Cannot delete a payment without a Payment ID specified", db).
Proof.
  apply (empty_id_fails_before_store (setID "" payload) (ID payload)
           (storeOf [payload])).
  reflexivity.
Defined.

(** ** Update: body identifier against path identifier *)

(** C10: when the request body of an update carries an identifier, the
    handler works on the body's payment [p] whatever the path segment is: an
    empty body identifier fails validation without a store call; otherwise
    the existence count is keyed by the body's identifier, and when the
    store holds it the replacement is keyed by it as well, leaving every
    record with another identifier (the path's included) in place.  The
    record written is [p] as the store holds it. *)
Theorem update_keyed_by_body_id (path : string) (p : Payment)
        (db : Database) :
  runState (updatePayment path (JSONObject true p)) db =
    runState (updatePayment (ID p) (JSONObject true p)) db /\
  (ID p = "" ->
   runState (updatePayment path (JSONObject true p)) db =
     (respondWithError StatusNotFound
        "Cannot update a payment without a Payment ID specified", db)) /\
  (ID p <> "" -> answering db -> stored (ID p) db = 0%nat ->
   runState (updatePayment path (JSONObject true p)) db =
     (respondWithError StatusNotFound
        "A payment with this Payment ID does not exist",
      logged (CallCount (SelID (ID p))) db)) /\
  (ID p <> "" -> answering db -> (0 < stored (ID p) db)%nat ->
   exists db1,
     runState (updatePayment path (JSONObject true p)) db =
       (respondWithJSON StatusOK (JSONPayment p), db1) /\
     issued db1 =
       (issued db ++ [CallCount (SelID (ID p)); CallUpdateId (ID p) p])%list /\
     docs db1 = replaceFirst (SelID (ID p)) (asStored p) (docs db) /\
     map ID (docs db1) = map ID (docs db) /\
     forall d, In d (docs db) -> ID d <> ID p -> In d (docs db1)).
Proof.
  pose proof (run_updatePayment path true p db) as Hu.
  pose proof (run_updatePayment (ID p) true p db) as Hu'.
  cbn zeta in Hu, Hu'.
  change (fst (Decode (JSONObject true p) (PaymentWithID path)))
    with p in Hu.
  change (fst (Decode (JSONObject true p) (PaymentWithID (ID p))))
    with p in Hu'.
  split; [congruence|]. rewrite Hu. clear Hu Hu'.
  split; [|split].
  - intros ->. reflexivity.
  - intros Hid Hup E.
    rewrite (nonempty_eqb _ Hid), (answering_nextFails _ Hup), E.
    reflexivity.
  - intros Hid Hup E.
    rewrite (nonempty_eqb _ Hid), (answering_nextFails _ Hup).
    rewrite (answering_nextFails _ (answering_logged _ _ Hup)).
    destruct (Nat.eqb_spec (stored (ID p) db) 0); [lia|].
    eexists. split; [reflexivity|]. cbn [issued docs logged].
    split; [rewrite <- app_assoc; reflexivity|].
    split; [reflexivity|].
    split; [apply (replaceFirst_map_ID (asStored p))|].
    intros d Hin Hd. apply replaceFirst_others; [|exact Hin].
    cbn [matches]. apply String.eqb_neq. exact Hd.
Qed.

Lemma update_keyed_by_body_id_witness :
  let other := setID "5ee3a8d8-ca7b-4290-a52c-dd5b6165ec43" payload in
  let p := setID "5ee3a8d8-ca7b-4290-a52c-dd5b6165ec43" payload2 in
  let db := storeOf [payload; other] in
  exists db1,
    runState (updatePayment (ID payload) (JSONObject true p)) db =
      (respondWithJSON StatusOK (JSONPayment p), db1) /\
    issued db1 =
      (issued db ++ [CallCount (SelID (ID p)); CallUpdateId (ID p) p])%list /\
    docs db1 = replaceFirst (SelID (ID p)) (asStored p) (docs db) /\
    map ID (docs db1) = map ID (docs db) /\
    forall d, In d (docs db) -> ID d <> ID p -> In d (docs db1).
Proof.
  apply (proj2 (proj2 (proj2
           (update_keyed_by_body_id (ID payload)
              (setID "5ee3a8d8-ca7b-4290-a52c-dd5b6165ec43" payload2)
              (storeOf [payload;
                        setID "5ee3a8d8-ca7b-4290-a52c-dd5b6165ec43"
                              payload]))))).
  - discriminate.
  - reflexivity.
  - cbn. lia.
Defined.

(** A body whose identifier differs from the path: the body's record is
    replaced and the path's record stays. *)
Example update_targets_body_record :
  let other := setID "5ee3a8d8-ca7b-4290-a52c-dd5b6165ec43" payload in
  let p := setID "5ee3a8d8-ca7b-4290-a52c-dd5b6165ec43" payload2 in
  docs (execState (updatePayment (ID payload) (JSONObject true p))
                  (storeOf [payload; other])) = [payload; p].
Proof. reflexivity. Qed.

(** Without an identifier in the body, the path segment is the key. *)
Lemma update_without_body_id_uses_path (path : string) (q : Payment)
      (db : Database) :
  runState (updatePayment path (JSONObject false q)) db =
  runState (updatePayment path (JSONObject true (setID path q))) db.
Proof. reflexivity. Qed.

(** ** The data-model invariant

    Every handler keeps the store at one record per identifier at most. *)

Lemma NoDup_map_ID_snoc (p : Payment) (l : list Payment) :
  NoDup (map ID l) -> ~ In (ID p) (map ID l) -> NoDup (map ID (l ++ [p])).
Proof.
  induction l as [|d l IH]; cbn [map app In]; intros Hnd Hnot.
  - constructor; [intros [] | constructor].
  - inversion Hnd as [|x xs Hx Hxs]; subst. constructor.
    + rewrite map_app, in_app_iff. cbn [map In]. intros [H|[H|[]]].
      * contradiction.
      * apply Hnot. left. congruence.
    + apply IH; [exact Hxs | tauto].
Qed.

Lemma removeFirst_incl (sel : Selector) (x : string) (l : list Payment) :
  In x (map ID (removeFirst sel l)) -> In x (map ID l).
Proof.
  induction l as [|d l IH]; [tauto|].
  cbn [removeFirst]. destruct (matches sel d); cbn [map In]; tauto.
Qed.

Lemma NoDup_removeFirst (sel : Selector) (l : list Payment) :
  NoDup (map ID l) -> NoDup (map ID (removeFirst sel l)).
Proof.
  induction l as [|d l IH]; [auto|].
  cbn [removeFirst map]. intros Hnd.
  inversion Hnd as [|x xs Hx Hxs]; subst.
  destruct (matches sel d); [exact Hxs|].
  cbn [map]. constructor; [|auto].
  intros Hin. apply Hx. eapply removeFirst_incl. exact Hin.
Qed.

Theorem handlers_keep_uniqueIDs (db : Database) :
  uniqueIDs db ->
  uniqueIDs (execState getPayments db) /\
  (forall id, uniqueIDs (execState (getPayment id) db)) /\
  (forall body, uniqueIDs (execState (createPayment body) db)) /\
  (forall id body, uniqueIDs (execState (updatePayment id body) db)) /\
  (forall id, uniqueIDs (execState (deletePayment id) db)).
Proof.
  intros Hu. unfold execState. repeat split.
  - rewrite run_getPayments. exact Hu.
  - intros id. rewrite run_getPayment. cbv zeta.
    repeat match goal with |- context [if ?b then _ else _] => destruct b end;
      exact Hu.
  - intros [|hasID decoded]; [exact Hu|].
    pose proof (run_createPayment hasID decoded db) as Hc. cbn zeta in Hc.
    rewrite Hc. clear Hc.
    set (p := fst (Decode (JSONObject hasID decoded) zeroPayment)).
    destruct (String.eqb (ID p) ""); [exact Hu|].
    destruct (nextFails db); [exact Hu|].
    destruct (Nat.eqb_spec (stored (ID p) db) 0) as [E|E]; [|exact Hu].
    destruct (nextFails _); [exact Hu|].
    unfold uniqueIDs. cbn [snd docs]. apply NoDup_map_ID_snoc; [exact Hu|].
    change (ID (asStored p)) with (ID p). rewrite stored_In. lia.
  - intros id [|hasID decoded]; [exact Hu|].
    pose proof (run_updatePayment id hasID decoded db) as Hc. cbn zeta in Hc.
    rewrite Hc. clear Hc.
    set (p := fst (Decode (JSONObject hasID decoded) (PaymentWithID id))).
    destruct (String.eqb (ID p) ""); [exact Hu|].
    destruct (nextFails db); [exact Hu|].
    destruct (Nat.eqb (stored (ID p) db) 0); [exact Hu|].
    destruct (nextFails _); [exact Hu|].
    unfold uniqueIDs. cbn [snd docs].
    rewrite (replaceFirst_map_ID (asStored p)). exact Hu.
  - intros id. rewrite run_deletePayment. cbv zeta.
    destruct (String.eqb id ""); [exact Hu|].
    destruct (nextFails db); [exact Hu|].
    destruct (Nat.eqb (stored id db) 0); [exact Hu|].
    destruct (nextFails _); [exact Hu|].
    unfold uniqueIDs. cbn [snd docs]. apply NoDup_removeFirst. exact Hu.
Qed.

Lemma uniqueIDs_empty_store : uniqueIDs (storeOf []).
Proof. constructor. Qed.

(** ** Scenarios of the test suite *)

(** [TestValidUpdate]: create [payload], update with [payload2], get. *)
Example scenario_create_update_get :
  let db1 := execState (createPayment (JSONObject true payload))
                       (storeOf []) in
  let db2 := execState (updatePayment (ID payload) (JSONObject true payload2))
                       db1 in
  evalState (getPayment (ID payload)) db1 =
    respondWithJSON StatusOK (JSONPayment payload) /\
  evalState (getPayment (ID payload)) db2 =
    respondWithJSON StatusOK (JSONPayment payload2) /\
  Attributes.Amount (Attributes payload2) = "121.00" /\
  DeepEqual payload payload2 = false.
Proof. repeat split. Qed.

(** [TestGetMultiplePayments]: four creates, then the list in insertion
    order. *)
Example scenario_four_payments :
  let ids := ["4ee3a8d8-ca7b-4290-a52c-dd5b6165ec43";
              "5ee3a8d8-ca7b-4290-a52c-dd5b6165ec43";
              "6ee3a8d8-ca7b-4290-a52c-dd5b6165ec43";
              "7ee3a8d8-ca7b-4290-a52c-dd5b6165ec43"] in
  let post db id :=
    execState (createPayment (JSONObject true (setID id payload2))) db in
  match content (evalState getPayments (fold_left post ids (storeOf []))) with
  | JSONPayments ps =>
      match P ps with
      | SliceOf l => map ID l = ids
      | SliceNil => False
      end
  | _ => False
  end.
Proof. reflexivity. Qed.

(** * Further properties of the lifecycle manager and the dispatcher *)

(** ** Counting helpers of [model.go] *)

(** X1: [returnPaymentCount] and [returnPaymentCountAndQuery] return the
    same count and error and leave the same state; the count is -1 exactly
    when an error is returned, and otherwise it is the number of stored
    records with the identifier; the query is [nil] exactly when an error is
    returned. *)
Theorem returnPaymentCount_contract (p : Payment) (db : Database) :
  let '(count, err, db1) := runState (returnPaymentCount p) db in
  let '(query, count', err', db1') :=
    runState (returnPaymentCountAndQuery p) db in
  count' = count /\ err' = err /\ db1' = db1 /\
  (count = -1 <-> err <> None) /\
  (err = None -> count = Z.of_nat (stored (ID p) db)) /\
  (query = None <-> err <> None) /\
  (err = None -> query = Some (Find (SelID (ID p)))).
Proof.
  rewrite run_returnPaymentCount, run_returnPaymentCountAndQuery.
  destruct (nextFails db).
  - repeat split; intros; congruence.
  - repeat split; intros; try congruence; try lia.
Qed.

(** X2: In a store with at most one record per identifier, a count query
    that answers reports 0 or 1. *)
Theorem returnPaymentCount_unique (p : Payment) (db : Database) :
  uniqueIDs db -> nextFails db = false ->
  evalState (returnPaymentCount p) db = (0, None) \/
  evalState (returnPaymentCount p) db = (1, None).
Proof.
  intros Hu Hup. unfold evalState. rewrite run_returnPaymentCount, Hup.
  pose proof (stored_unique (ID p) db Hu) as H. cbn [fst].
  destruct (stored (ID p) db) as [|[|n]]; [left | right | lia]; reflexivity.
Qed.

Lemma returnPaymentCount_unique_witness :
  evalState (returnPaymentCount payload) (storeOf [payload]) = (0, None) \/
  evalState (returnPaymentCount payload) (storeOf [payload]) = (1, None).
Proof.
  apply (returnPaymentCount_unique payload (storeOf [payload])).
  - unfold uniqueIDs. cbn. repeat constructor. intros [].
  - reflexivity.
Defined.

(** ** Get *)

(** X3: The result of [modelGetPayment] has one of three shapes, for every
    payment and every state of the store: the count is -1, 0 or 1; no error
    is returned exactly when the count is 1; and with an error the returned
    payment is the zero value.  So [getPayment] answers every error with 404
    or 500 and never falls through to 200 with one. *)
Theorem modelGetPayment_result_shape (p : Payment) (db : Database) :
  let r := evalState (modelGetPayment p) db in
  (fst (fst r) = -1 \/ fst (fst r) = 0 \/ fst (fst r) = 1) /\
  (snd r = None <-> fst (fst r) = 1) /\
  (snd r <> None -> snd (fst r) = zeroPayment) /\
  (snd r <> None ->
   code (evalState (getPayment (ID p)) db) = StatusNotFound \/
   code (evalState (getPayment (ID p)) db) = StatusInternalServerError).
Proof.
  unfold evalState. rewrite run_modelGetPayment, run_getPayment. cbv zeta.
  destruct (String.eqb (ID p) "");
    [cbn; repeat split; intros; try congruence; auto|].
  destruct (nextFails db);
    [cbn; repeat split; intros; try congruence; auto|].
  destruct (Nat.eqb (stored (ID p) db) 0);
    [cbn; repeat split; intros; try congruence; auto|].
  destruct (Nat.ltb 1 (stored (ID p) db));
    cbn; repeat split; intros; try congruence; auto.
Qed.

(** X4: [modelGetPayment] drops the error of [query.One]: when the count query
    answers one record and the fetch that follows fails, it returns count 1,
    the zero payment and no error, and [getPayment] answers 200 with the
    zero payment. *)
Theorem modelGetPayment_drops_fetch_error (id : string) (db : Database) :
  id <> "" -> nextFails db = false -> stored id db = 1%nat ->
  nextFails (logged (CallCount (SelID id)) db) = true ->
  evalState (modelGetPayment (PaymentWithID id)) db = (1, zeroPayment, None) /\
  evalState (getPayment id) db =
    respondWithJSON StatusOK (JSONPayment zeroPayment).
Proof.
  intros Hid Hup Hone Hdown. unfold evalState.
  rewrite run_modelGetPayment, run_getPayment.
  change (ID (PaymentWithID id)) with id. cbv zeta.
  rewrite (nonempty_eqb _ Hid), Hup, Hone. cbn [Nat.eqb Nat.ltb Nat.leb].
  rewrite run_One, Hdown. split; reflexivity.
Qed.

Lemma modelGetPayment_drops_fetch_error_witness :
  evalState (modelGetPayment (PaymentWithID (ID payload)))
            (mkDatabase [payload] [false; true] []) =
    (1, zeroPayment, None) /\
  evalState (getPayment (ID payload))
            (mkDatabase [payload] [false; true] []) =
    respondWithJSON StatusOK (JSONPayment zeroPayment).
Proof.
  apply (modelGetPayment_drops_fetch_error (ID payload)
           (mkDatabase [payload] [false; true] []));
    [discriminate | reflexivity | reflexivity | reflexivity].
Defined.


(** ** Reads leave the records alone *)

(** X6: The list and get handlers, [modelGetPayment], the count helper and the
    three validity checks never change the stored records, whatever the
    identifier and whether the store answers or fails. *)
Theorem reads_keep_records (p : Payment) (id : string) (db : Database) :
  docs (execState getPayments db) = docs db /\
  docs (execState (getPayment id) db) = docs db /\
  docs (execState (modelGetPayment p) db) = docs db /\
  docs (execState (returnPaymentCount p) db) = docs db /\
  docs (execState (modelCreatePaymentValidCheck p) db) = docs db /\
  docs (execState (modelUpdatePaymentValidCheck p) db) = docs db /\
  docs (execState (modelDeletePaymentValidCheck p) db) = docs db.
Proof.
  unfold execState.
  rewrite run_getPayments, run_getPayment, run_modelGetPayment,
    run_returnPaymentCount, run_modelCreatePaymentValidCheck,
    run_modelUpdatePaymentValidCheck, run_modelDeletePaymentValidCheck.
  cbv zeta.
  repeat split;
    repeat match goal with
           | |- context [if ?b then _ else _] => destruct b
           end; reflexivity.
Qed.

(** ** Writes are all or nothing *)

(** X7: The create handler, for every body and every state of the store: either
    it answers 201, the body decoded to a payment with a non-empty
    identifier the store did not hold, that payment is echoed and is
    appended, as the store holds it, as the last record; or it answers 400
    or 500 with an error message and the records are as before. *)
Theorem createPayment_all_or_nothing (body : RequestBody) (db : Database) :
  let r := evalState (createPayment body) db in
  let db' := execState (createPayment body) db in
  (code r = StatusCreated /\
   exists p, Decode body zeroPayment = (p, None) /\
     content r = JSONPayment p /\ ID p <> "" /\
     stored (ID p) db = 0%nat /\
     docs db' = (docs db ++ [asStored p])%list) \/
  ((code r = StatusBadRequest \/ code r = StatusInternalServerError) /\
   (exists message, content r = JSONMap "error" message) /\
   docs db' = docs db).
Proof.
  cbv zeta. destruct body as [|hasID decoded]; [right; cbn; eauto|].
  unfold evalState, execState.
  pose proof (run_createPayment hasID decoded db) as Hc. cbn zeta in Hc.
  rewrite Hc. clear Hc.
  set (p := fst (Decode (JSONObject hasID decoded) zeroPayment)).
  destruct (String.eqb_spec (ID p) ""); [right; cbn; eauto|].
  destruct (nextFails db); [right; cbn; eauto|].
  destruct (Nat.eqb_spec (stored (ID p) db) 0); [|right; cbn; eauto].
  destruct (nextFails _); [right; cbn; eauto|].
  left. cbn [fst snd code content respondWithJSON docs].
  split; [reflexivity|]. exists p. repeat split; auto.
Qed.

(** X8: The update handler, for every path identifier, body and state of the
    store: either it answers 200, the body decoded to a payment whose
    non-empty identifier the store held, that payment is echoed and, as the
    store holds it, replaces the first record with its identifier, the
    number of records and their identifiers staying the same; or it answers
    400, 404 or 500 with an error message and the records are as before. *)
Theorem updatePayment_all_or_nothing (id : string) (body : RequestBody)
        (db : Database) :
  let r := evalState (updatePayment id body) db in
  let db' := execState (updatePayment id body) db in
  (code r = StatusOK /\
   exists p, Decode body (PaymentWithID id) = (p, None) /\
     content r = JSONPayment p /\ ID p <> "" /\
     (0 < stored (ID p) db)%nat /\
     docs db' = replaceFirst (SelID (ID p)) (asStored p) (docs db) /\
     map ID (docs db') = map ID (docs db)) \/
  ((code r = StatusBadRequest \/ code r = StatusNotFound \/
    code r = StatusInternalServerError) /\
   (exists message, content r = JSONMap "error" message) /\
   docs db' = docs db).
Proof.
  cbv zeta. destruct body as [|hasID decoded]; [right; cbn; split; [auto 6 | eauto]|].
  unfold evalState, execState.
  pose proof (run_updatePayment id hasID decoded db) as Hc. cbn zeta in Hc.
  rewrite Hc. clear Hc.
  set (p := fst (Decode (JSONObject hasID decoded) (PaymentWithID id))).
  destruct (String.eqb_spec (ID p) ""); [right; cbn; split; [auto 6 | eauto]|].
  destruct (nextFails db); [right; cbn; split; [auto 6 | eauto]|].
  destruct (Nat.eqb_spec (stored (ID p) db) 0); [right; cbn; split; [auto 6 | eauto]|].
  destruct (nextFails _); [right; cbn; split; [auto 6 | eauto]|].
  left. cbn [fst snd code content respondWithJSON docs].
  split; [reflexivity|]. exists p.
  repeat split; auto; [lia | apply (replaceFirst_map_ID (asStored p))].
Qed.

Lemma removeFirst_length (sel : Selector) (l : list Payment) :
  existsb (matches sel) l = true ->
  S (length (removeFirst sel l)) = length l.
Proof.
  induction l as [|d l IH]; [discriminate|].
  cbn [existsb removeFirst]. destruct (matches sel d); [reflexivity|].
  cbn [orb length]. intros H. rewrite (IH H). reflexivity.
Qed.

(** X9: The delete handler, for every identifier and state of the store: either
    it answers 200 with the success acknowledgment, the identifier is not
    empty, the store held it and the first record with it is removed, so one
    record less is stored; or it answers 404 or 500 with an error message
    and the records are as before. *)
Theorem deletePayment_all_or_nothing (id : string) (db : Database) :
  let r := evalState (deletePayment id) db in
  let db' := execState (deletePayment id) db in
  (code r = StatusOK /\ content r = JSONMap "result" "success" /\
   id <> "" /\ (0 < stored id db)%nat /\
   docs db' = removeFirst (SelID id) (docs db) /\
   S (length (docs db')) = length (docs db)) \/
  ((code r = StatusNotFound \/ code r = StatusInternalServerError) /\
   (exists message, content r = JSONMap "error" message) /\
   docs db' = docs db).
Proof.
  cbv zeta. unfold evalState, execState. rewrite run_deletePayment. cbv zeta.
  destruct (String.eqb_spec id ""); [right; cbn; eauto|].
  destruct (nextFails db); [right; cbn; eauto|].
  destruct (Nat.eqb_spec (stored id db) 0) as [E|E]; [right; cbn; eauto|].
  destruct (nextFails _); [right; cbn; eauto|].
  left. cbn [fst snd code content respondWithJSON docs].
  repeat split; auto; [lia|].
  apply removeFirst_length. rewrite stored_existsb.
  destruct (Nat.eqb_spec (stored id db) 0); [contradiction | reflexivity].
Qed.

(** ** Store failures in update and delete *)

(** X10: The update handler answers a failure of the existence count query with
    404 and the driver's message, and a failure of the replacement itself
    with 500; in both cases the records are as before. *)
Theorem updatePayment_store_failures (path : string) (p : Payment)
        (db : Database) :
  ID p <> "" ->
  (nextFails db = true ->
   runState (updatePayment path (JSONObject true p)) db =
     (respondWithError StatusNotFound (Error (driverError ErrUnreachable)),
      logged (CallCount (SelID (ID p))) db)) /\
  (nextFails db = false -> (0 < stored (ID p) db)%nat ->
   nextFails (logged (CallCount (SelID (ID p))) db) = true ->
   runState (updatePayment path (JSONObject true p)) db =
     (respondWithError StatusInternalServerError
        (Error (driverError ErrUnreachable)),
      logged (CallUpdateId (ID p) p) (logged (CallCount (SelID (ID p))) db))).
Proof.
  intros Hid.
  pose proof (run_updatePayment path true p db) as Hu. cbn zeta in Hu.
  change (fst (Decode (JSONObject true p) (PaymentWithID path)))
    with p in Hu.
  rewrite Hu, (nonempty_eqb _ Hid). clear Hu. split.
  - intros ->. reflexivity.
  - intros -> E ->.
    destruct (Nat.eqb_spec (stored (ID p) db) 0); [lia | reflexivity].
Qed.

Lemma updatePayment_store_failures_witness :
  runState (updatePayment "11" (JSONObject true payload2))
           (mkDatabase [payload] [true] []) =
    (respondWithError StatusNotFound (Error (driverError ErrUnreachable)),
     logged (CallCount (SelID (ID payload2)))
            (mkDatabase [payload] [true] [])) /\
  runState (updatePayment "11" (JSONObject true payload2))
           (mkDatabase [payload] [false; true] []) =
    (respondWithError StatusInternalServerError
       (Error (driverError ErrUnreachable)),
     logged (CallUpdateId (ID payload2) payload2)
       (logged (CallCount (SelID (ID payload2)))
               (mkDatabase [payload] [false; true] []))).
Proof.
  split.
  - apply (updatePayment_store_failures "11" payload2
             (mkDatabase [payload] [true] []));
      [discriminate | reflexivity].
  - apply (updatePayment_store_failures "11" payload2
             (mkDatabase [payload] [false; true] []));
      [discriminate | reflexivity | cbn; lia | reflexivity].
Defined.

(** X11: The delete handler answers an identifier the store does not hold with
    404 and "A payment with this Payment ID doesn't exists", issuing only
    the count query; it answers a failure of the count query with 404 too,
    and a failure of the removal itself with 500. *)
Theorem deletePayment_failures (id : string) (db : Database) :
  id <> "" ->
  (nextFails db = false -> stored id db = 0%nat ->
   runState (deletePayment id) db =
     (respondWithError StatusNotFound
        "A payment with this Payment ID doesn't exists",
      logged (CallCount (SelID id)) db)) /\
  (nextFails db = true ->
   runState (deletePayment id) db =
     (respondWithError StatusNotFound (Error (driverError ErrUnreachable)),
      logged (CallCount (SelID id)) db)) /\
  (nextFails db = false -> (0 < stored id db)%nat ->
   nextFails (logged (CallCount (SelID id)) db) = true ->
   runState (deletePayment id) db =
     (respondWithError StatusInternalServerError
        (Error (driverError ErrUnreachable)),
      logged (CallRemove (SelID id)) (logged (CallCount (SelID id)) db))).
Proof.
  intros Hid. rewrite run_deletePayment, (nonempty_eqb _ Hid). cbv zeta.
  split; [|split].
  - intros -> ->. reflexivity.
  - intros ->. reflexivity.
  - intros -> E ->.
    destruct (Nat.eqb_spec (stored id db) 0); [lia | reflexivity].
Qed.

Lemma deletePayment_failures_witness :
  runState (deletePayment "12") (storeOf [payload]) =
    (respondWithError StatusNotFound
       "A payment with this Payment ID doesn't exists",
     logged (CallCount (SelID "12")) (storeOf [payload])) /\
  runState (deletePayment "12") (mkDatabase [payload] [true] []) =
    (respondWithError StatusNotFound (Error (driverError ErrUnreachable)),
     logged (CallCount (SelID "12")) (mkDatabase [payload] [true] [])) /\
  runState (deletePayment (ID payload))
           (mkDatabase [payload] [false; true] []) =
    (respondWithError StatusInternalServerError
       (Error (driverError ErrUnreachable)),
     logged (CallRemove (SelID (ID payload)))
       (logged (CallCount (SelID (ID payload)))
               (mkDatabase [payload] [false; true] []))).
Proof.
  split; [|split].
  - apply (deletePayment_failures "12" (storeOf [payload]));
      [discriminate | reflexivity | reflexivity].
  - apply (deletePayment_failures "12" (mkDatabase [payload] [true] []));
      [discriminate | reflexivity].
  - apply (deletePayment_failures (ID payload)
             (mkDatabase [payload] [false; true] []));
      [discriminate | reflexivity | cbn; lia | reflexivity].
Defined.

(** ** Check, then act *)

Lemma callsOf_app {A : Type} (m : state Database A) (db : Database)
      (calls : list StoreCall) :
  issued (execState m db) = (issued db ++ calls)%list ->
  callsOf m db = calls.
Proof.
  unfold callsOf. intros ->.
  rewrite skipn_app, skipn_all, Nat.sub_diag. reflexivity.
Qed.

Lemma issued_logged (c : StoreCall) (db : Database) :
  issued (logged c db) = (issued db ++ [c])%list.
Proof. reflexivity. Qed.

Lemma issued_logged2 (c c' : StoreCall) (db : Database) :
  (issued (logged c db) ++ [c'])%list = (issued db ++ [c; c'])%list.
Proof. cbn. rewrite <- app_assoc. reflexivity. Qed.

(** X12: The store calls of one request, for every input and state of the store:
    the list handler issues the find-all query and nothing else; the get
    handler issues nothing, the count query, or the count query and then
    the fetch; create, update and delete issue nothing, the count query for
    the payment's identifier, or that count query followed by the one write
    for the same identifier.  So no handler writes before it has counted,
    and none issues more than two calls. *)
Theorem handlers_check_then_act (db : Database) :
  callsOf getPayments db = [CallAll SelAll] /\
  (forall id,
     let calls := callsOf (getPayment id) db in
     calls = [] \/ calls = [CallCount (SelID id)] \/
     calls = [CallCount (SelID id); CallOne (SelID id)]) /\
  (forall body,
     let calls := callsOf (createPayment body) db in
     calls = [] \/
     exists p, Decode body zeroPayment = (p, None) /\
       (calls = [CallCount (SelID (ID p))] \/
        calls = [CallCount (SelID (ID p)); CallInsert p])) /\
  (forall id body,
     let calls := callsOf (updatePayment id body) db in
     calls = [] \/
     exists p, Decode body (PaymentWithID id) = (p, None) /\
       (calls = [CallCount (SelID (ID p))] \/
        calls = [CallCount (SelID (ID p)); CallUpdateId (ID p) p])) /\
  (forall id,
     let calls := callsOf (deletePayment id) db in
     calls = [] \/ calls = [CallCount (SelID id)] \/
     calls = [CallCount (SelID id); CallRemove (SelID id)]).
Proof.
  assert (Hnil : forall A (m : state Database A),
             execState m db = db -> callsOf m db = []).
  { intros A m H. apply callsOf_app. rewrite H, app_nil_r. reflexivity. }
  split; [|split; [|split; [|split]]].
  - apply callsOf_app. unfold execState. rewrite run_getPayments.
    reflexivity.
  - intros id calls. subst calls.
    pose proof (run_getPayment id db) as H. cbv zeta in H.
    destruct (String.eqb id "");
      [left; apply Hnil; unfold execState; now rewrite H|].
    right.
    destruct (nextFails db);
      [left; apply callsOf_app; unfold execState; now rewrite H|].
    destruct (Nat.eqb (stored id db) 0);
      [left; apply callsOf_app; unfold execState; now rewrite H|].
    destruct (Nat.ltb 1 (stored id db));
      [left; apply callsOf_app; unfold execState; now rewrite H|].
    right. apply callsOf_app. unfold execState. rewrite H.
    cbn [snd]. rewrite issued_logged. apply issued_logged2.
  - intros [|hasID decoded] calls; subst calls;
      [left; apply Hnil; reflexivity|].
    pose proof (run_createPayment hasID decoded db) as H. cbv zeta in H.
    set (p := fst (Decode (JSONObject hasID decoded) zeroPayment)) in *.
    destruct (String.eqb (ID p) "");
      [left; apply Hnil; unfold execState; now rewrite H|].
    right. exists p. split; [reflexivity|].
    destruct (nextFails db);
      [left; apply callsOf_app; unfold execState; now rewrite H|].
    destruct (Nat.eqb (stored (ID p) db) 0);
      [|left; apply callsOf_app; unfold execState; now rewrite H].
    right. apply callsOf_app. unfold execState. rewrite H.
    destruct (nextFails _); cbn [snd issued];
      [rewrite issued_logged|]; apply issued_logged2.
  - intros id [|hasID decoded] calls; subst calls;
      [left; apply Hnil; reflexivity|].
    pose proof (run_updatePayment id hasID decoded db) as H. cbv zeta in H.
    set (p := fst (Decode (JSONObject hasID decoded) (PaymentWithID id)))
      in *.
    destruct (String.eqb (ID p) "");
      [left; apply Hnil; unfold execState; now rewrite H|].
    right. exists p. split; [reflexivity|].
    destruct (nextFails db);
      [left; apply callsOf_app; unfold execState; now rewrite H|].
    destruct (Nat.eqb (stored (ID p) db) 0);
      [left; apply callsOf_app; unfold execState; now rewrite H|].
    right. apply callsOf_app. unfold execState. rewrite H.
    destruct (nextFails _); cbn [snd issued];
      [rewrite issued_logged|]; apply issued_logged2.
  - intros id calls. subst calls.
    pose proof (run_deletePayment id db) as H. cbv zeta in H.
    destruct (String.eqb id "");
      [left; apply Hnil; unfold execState; now rewrite H|].
    right.
    destruct (nextFails db);
      [left; apply callsOf_app; unfold execState; now rewrite H|].
    destruct (Nat.eqb (stored id db) 0);
      [left; apply callsOf_app; unfold execState; now rewrite H|].
    right. apply callsOf_app. unfold execState. rewrite H.
    destruct (nextFails _); cbn [snd issued];
      [rewrite issued_logged|]; apply issued_logged2.
Qed.

(** ** Other identifiers are left alone *)

Lemma filter_replaceFirst_other (id id' : string) (new : Payment)
      (l : list Payment) :
  ID new = id -> id' <> id ->
  filter (matches (SelID id')) (replaceFirst (SelID id) new l) =
  filter (matches (SelID id')) l.
Proof.
  intros Hnew Hne. induction l as [|d l IH]; [reflexivity|].
  cbn [replaceFirst]. destruct (matches (SelID id) d) eqn:M.
  - cbn [filter matches]. cbn [matches] in M. apply String.eqb_eq in M.
    rewrite Hnew, M.
    destruct (String.eqb_spec id id'); [congruence | reflexivity].
  - cbn [filter]. rewrite IH. reflexivity.
Qed.

Lemma filter_removeFirst_other (id id' : string) (l : list Payment) :
  id' <> id ->
  filter (matches (SelID id')) (removeFirst (SelID id) l) =
  filter (matches (SelID id')) l.
Proof.
  intros Hne. induction l as [|d l IH]; [reflexivity|].
  cbn [removeFirst]. destruct (matches (SelID id) d) eqn:M.
  - cbn [filter matches]. cbn [matches] in M. apply String.eqb_eq in M.
    rewrite M. destruct (String.eqb_spec id id'); [congruence | reflexivity].
  - cbn [filter]. rewrite IH. reflexivity.
Qed.

Lemma filter_snoc_other (id' : string) (p : Payment) (l : list Payment) :
  id' <> ID p ->
  filter (matches (SelID id')) (l ++ [p]) = filter (matches (SelID id')) l.
Proof.
  intros Hne. rewrite filter_app. cbn [filter matches].
  destruct (String.eqb_spec (ID p) id'); [congruence|]. apply app_nil_r.
Qed.

(** X13: Creating, updating or deleting under one identifier never touches the
    records of another: for every identifier [id'] other than the one the
    request works on, the stored records with [id'] are the same, in the
    same order, after the request as before it, whether the request
    succeeds or fails. *)
Theorem writes_keep_other_identifiers (path id' : string) (p : Payment)
        (db : Database) :
  id' <> ID p ->
  let others db0 := filter (matches (SelID id')) (docs db0) in
  others (execState (createPayment (JSONObject true p)) db) = others db /\
  others (execState (updatePayment path (JSONObject true p)) db) =
    others db /\
  others (execState (deletePayment (ID p)) db) = others db.
Proof.
  intros Hne others. subst others. cbv beta. unfold execState.
  pose proof (run_createPayment true p db) as Hc.
  pose proof (run_updatePayment path true p db) as Hu.
  cbn zeta in Hc, Hu.
  change (fst (Decode (JSONObject true p) zeroPayment)) with p in Hc.
  change (fst (Decode (JSONObject true p) (PaymentWithID path)))
    with p in Hu.
  rewrite Hc, Hu, run_deletePayment. clear Hc Hu. cbv zeta.
  destruct (String.eqb (ID p) ""); [repeat split|].
  destruct (nextFails db); [repeat split|].
  destruct (Nat.eqb (stored (ID p) db) 0);
    destruct (nextFails _); cbn [snd docs logged];
    repeat split;
    first [ reflexivity
          | apply filter_snoc_other; exact Hne
          | apply filter_replaceFirst_other; [reflexivity | exact Hne]
          | apply filter_removeFirst_other; exact Hne ].
Qed.

Lemma writes_keep_other_identifiers_witness :
  let others db0 := filter (matches (SelID "11")) (docs db0) in
  others (execState (createPayment (JSONObject true payload))
                    (storeOf [setID "11" payload])) =
    others (storeOf [setID "11" payload]) /\
  others (execState (updatePayment "11" (JSONObject true payload))
                    (storeOf [setID "11" payload])) =
    others (storeOf [setID "11" payload]) /\
  others (execState (deletePayment (ID payload))
                    (storeOf [setID "11" payload])) =
    others (storeOf [setID "11" payload]).
Proof.
  apply (writes_keep_other_identifiers "11" "11" payload
           (storeOf [setID "11" payload])).
  discriminate.
Defined.

(** ** Compositions *)

Lemma replaceFirst_idempotent (sel : Selector) (new : Payment)
      (l : list Payment) :
  matches sel new = true ->
  replaceFirst sel new (replaceFirst sel new l) = replaceFirst sel new l.
Proof.
  intros Hnew. induction l as [|d l IH]; [reflexivity|].
  cbn [replaceFirst]. destruct (matches sel d) eqn:M; cbn [replaceFirst].
  - rewrite Hnew. reflexivity.
  - rewrite M, IH. reflexivity.
Qed.

(** X14: Updating twice with the same payment is the same as updating once: in a
    store that answers and holds the payment's non-empty identifier, the
    second update answers 200 with the payment like the first, and the
    records after it are the records after the first. *)
Theorem updatePayment_idempotent (path : string) (p : Payment)
        (db : Database) :
  ID p <> "" -> (0 < stored (ID p) db)%nat -> answering db ->
  let db1 := execState (updatePayment path (JSONObject true p)) db in
  evalState (updatePayment path (JSONObject true p)) db =
    respondWithJSON StatusOK (JSONPayment p) /\
  evalState (updatePayment path (JSONObject true p)) db1 =
    respondWithJSON StatusOK (JSONPayment p) /\
  docs (execState (updatePayment path (JSONObject true p)) db1) = docs db1.
Proof.
  intros Hid Hold Hup.
  assert (Hrun : forall db0, answering db0 -> (0 < stored (ID p) db0)%nat ->
            runState (updatePayment path (JSONObject true p)) db0 =
            (respondWithJSON StatusOK (JSONPayment p),
             mkDatabase (replaceFirst (SelID (ID p)) (asStored p) (docs db0)) []
               (issued db0 ++
                [CallCount (SelID (ID p)); CallUpdateId (ID p) p]))).
  { intros db0 Hup0 Hold0.
    pose proof (run_updatePayment path true p db0) as Hu. cbn zeta in Hu.
    change (fst (Decode (JSONObject true p) (PaymentWithID path)))
      with p in Hu.
    rewrite Hu, (nonempty_eqb _ Hid), (answering_nextFails _ Hup0).
    rewrite (answering_nextFails _ (answering_logged _ _ Hup0)).
    destruct (Nat.eqb_spec (stored (ID p) db0) 0); [lia|].
    rewrite issued_logged2. unfold answering in Hup0. cbn [logged faults].
    rewrite Hup0. reflexivity. }
  intros db1. subst db1. unfold evalState, execState.
  rewrite (Hrun db Hup Hold). cbn [fst snd].
  set (db1 := mkDatabase (replaceFirst (SelID (ID p)) (asStored p) (docs db)) [] _).
  assert (Hup1 : answering db1) by reflexivity.
  assert (Hold1 : (0 < stored (ID p) db1)%nat).
  { unfold stored in *. unfold db1. cbn [docs].
    rewrite (filter_replaceFirst _ _ _ (matches_own_ID (asStored p))).
    destruct (filter _ (docs db)); cbn in *; lia. }
  rewrite (Hrun db1 Hup1 Hold1). cbn [fst snd docs].
  repeat split.
  apply (replaceFirst_idempotent _ _ _ (matches_own_ID (asStored p))).
Qed.

Lemma updatePayment_idempotent_witness :
  let db1 := execState (updatePayment "11" (JSONObject true payload2))
                       (storeOf [payload]) in
  evalState (updatePayment "11" (JSONObject true payload2))
            (storeOf [payload]) =
    respondWithJSON StatusOK (JSONPayment payload2) /\
  evalState (updatePayment "11" (JSONObject true payload2)) db1 =
    respondWithJSON StatusOK (JSONPayment payload2) /\
  docs (execState (updatePayment "11" (JSONObject true payload2)) db1) =
    docs db1.
Proof.
  apply (updatePayment_idempotent "11" payload2 (storeOf [payload]));
    [discriminate | cbn; lia | reflexivity].
Defined.

Lemma removeFirst_snoc_new (p : Payment) (l : list Payment) :
  filter (matches (SelID (ID p))) l = [] ->
  removeFirst (SelID (ID p)) (l ++ [p]) = l.
Proof.
  induction l as [|d l IH]; cbn [app removeFirst filter].
  - intros _. rewrite matches_own_ID. reflexivity.
  - destruct (matches (SelID (ID p)) d); [discriminate|].
    intros H. rewrite (IH H). reflexivity.
Qed.

(** X15: Creating a payment and then deleting its identifier gives the records
    back as they were: in a store that answers and does not hold the
    payment's non-empty identifier, create answers 201, the delete that
    follows answers 200, and the records are the same, in the same order,
    as before the two requests. *)
Theorem create_then_delete_restores (p : Payment) (db : Database) :
  ID p <> "" -> stored (ID p) db = 0%nat -> answering db ->
  let db1 := execState (createPayment (JSONObject true p)) db in
  evalState (createPayment (JSONObject true p)) db =
    respondWithJSON StatusCreated (JSONPayment p) /\
  evalState (deletePayment (ID p)) db1 =
    respondWithJSON StatusOK (JSONMap "result" "success") /\
  docs (execState (deletePayment (ID p)) db1) = docs db.
Proof.
  intros Hid Hnew Hup db1. subst db1. unfold evalState, execState.
  pose proof (run_createPayment true p db) as Hc. cbn zeta in Hc.
  change (fst (Decode (JSONObject true p) zeroPayment)) with p in Hc.
  rewrite (nonempty_eqb _ Hid), (answering_nextFails _ Hup), Hnew in Hc.
  rewrite (answering_nextFails _ (answering_logged _ _ Hup)) in Hc.
  cbn [Nat.eqb] in Hc. rewrite Hc. cbn [fst snd].
  set (db1 := mkDatabase (docs db ++ [asStored p]) _ _).
  assert (Hup1 : answering db1).
  { unfold answering, db1. cbn. rewrite Hup. reflexivity. }
  assert (Hone : stored (ID p) db1 = 1%nat).
  { unfold stored, db1. cbn [docs].
    rewrite filter_app, (filter_stored_zero _ _ Hnew).
    cbn [filter app]. rewrite matches_asStored, matches_own_ID.
    reflexivity. }
  rewrite run_deletePayment. cbv zeta.
  rewrite (nonempty_eqb _ Hid), (answering_nextFails _ Hup1), Hone.
  rewrite (answering_nextFails _ (answering_logged _ _ Hup1)).
  cbn [Nat.eqb fst snd docs]. repeat split.
  unfold db1. cbn [docs].
  apply (removeFirst_snoc_new (asStored p)), filter_stored_zero, Hnew.
Qed.

Lemma create_then_delete_restores_witness :
  let db1 := execState (createPayment (JSONObject true payload))
                       (storeOf [setID "11" payload]) in
  evalState (createPayment (JSONObject true payload))
            (storeOf [setID "11" payload]) =
    respondWithJSON StatusCreated (JSONPayment payload) /\
  evalState (deletePayment (ID payload)) db1 =
    respondWithJSON StatusOK (JSONMap "result" "success") /\
  docs (execState (deletePayment (ID payload)) db1) =
    docs (storeOf [setID "11" payload]).
Proof.
  apply (create_then_delete_restores payload (storeOf [setID "11" payload]));
    [discriminate | reflexivity | reflexivity].
Defined.

(** ** Sequences of requests *)

Lemma run_executeRequests_cons (req : Request) (rest : list Request)
      (db : Database) :
  runState (executeRequests (req :: rest)) db =
  let (response, db1) := runState (initializeRoutes req) db in
  let (responses, db2) := runState (executeRequests rest) db1 in
  (response :: responses, db2).
Proof.
  cbn [executeRequests]. rewrite run_bind.
  destruct (runState (initializeRoutes req) db) as [response db1].
  rewrite run_bind.
  destruct (runState (executeRequests rest) db1) as [responses db2].
  reflexivity.
Qed.

Lemma stored_snoc_other (id : string) (p : Payment) (db : Database)
      (f : list bool) (log : list StoreCall) :
  id <> ID p ->
  stored id (mkDatabase (docs db ++ [p]) f log) = stored id db.
Proof.
  intros Hne. unfold stored. cbn [docs].
  rewrite (filter_snoc_other _ _ _ Hne). reflexivity.
Qed.

Lemma run_creates (ps : list Payment) (db : Database) :
  answering db -> NoDup (map ID ps) ->
  (forall p, In p ps -> ID p <> "" /\ stored (ID p) db = 0%nat) ->
  exists log,
    runState
      (executeRequests (map (fun p => POST_payment (JSONObject true p)) ps))
      db =
    (map (fun p => respondWithJSON StatusCreated (JSONPayment p)) ps,
     mkDatabase (docs db ++ map asStored ps) [] log).
Proof.
  revert db. induction ps as [|p ps IH]; intros db Hup Hnd Hnew.
  - exists (issued db). cbn. rewrite app_nil_r.
    destruct db as [d f i]. unfold answering in Hup. cbn in Hup |- *.
    rewrite Hup. reflexivity.
  - cbn [map]. rewrite run_executeRequests_cons. cbn [initializeRoutes].
    destruct (Hnew p (or_introl eq_refl)) as [Hid Hz].
    pose proof (run_createPayment true p db) as Hc. cbn zeta in Hc.
    change (fst (Decode (JSONObject true p) zeroPayment)) with p in Hc.
    rewrite (nonempty_eqb _ Hid), (answering_nextFails _ Hup), Hz in Hc.
    rewrite (answering_nextFails _ (answering_logged _ _ Hup)) in Hc.
    cbn [Nat.eqb] in Hc. rewrite Hc. clear Hc.
    set (db1 := mkDatabase (docs db ++ [asStored p]) _ _).
    assert (Hup1 : answering db1).
    { unfold answering, db1. cbn. rewrite Hup. reflexivity. }
    inversion Hnd as [|x xs Hnotin Hnd']; subst.
    destruct (IH db1 Hup1 Hnd') as [log Hrun].
    { intros q Hq. destruct (Hnew q (or_intror Hq)) as [Hqid Hqz].
      split; [exact Hqid|]. unfold db1.
      rewrite (stored_snoc_other _ (asStored p)); [exact Hqz|].
      intros E. apply Hnotin. change (ID (asStored p)) with (ID p) in E.
      rewrite <- E. apply in_map. exact Hq. }
    exists log. rewrite Hrun. unfold db1. cbn [docs map].
    rewrite <- app_assoc. reflexivity.
Qed.

(** X16: Creating payments one after the other and then listing returns them in
    the order of creation: for payments with distinct non-empty identifiers
    that a store which answers does not hold, every create answers 201 with
    its payment, the records become the earlier records followed by the
    payments, as the store holds them, in request order, and the list
    handler returns exactly that sequence. *)
Theorem creates_then_list (ps : list Payment) (db : Database) :
  answering db -> NoDup (map ID ps) ->
  (forall p, In p ps -> ID p <> "" /\ stored (ID p) db = 0%nat) ->
  let posts := map (fun p => POST_payment (JSONObject true p)) ps in
  let db' := execState (executeRequests posts) db in
  evalState (executeRequests posts) db =
    map (fun p => respondWithJSON StatusCreated (JSONPayment p)) ps /\
  docs db' = (docs db ++ map asStored ps)%list /\
  evalState getPayments db' =
    respondWithJSON StatusOK
      (JSONPayments
         (mkPayments (SliceOf (docs db ++ map asStored ps))
            (Links.mk "https://api.test.form3.tech/v1/payments"))).
Proof.
  intros Hup Hnd Hnew posts db'. subst posts db'.
  destruct (run_creates ps db Hup Hnd Hnew) as [log Hrun].
  unfold evalState, execState. rewrite Hrun. cbn [fst snd docs].
  rewrite run_getPayments. repeat split.
Qed.

Lemma creates_then_list_witness :
  let ps := [payload; setID "5ee3a8d8-ca7b-4290-a52c-dd5b6165ec43" payload2] in
  let db := storeOf [setID "11" payload] in
  let posts := map (fun p => POST_payment (JSONObject true p)) ps in
  let db' := execState (executeRequests posts) db in
  evalState (executeRequests posts) db =
    map (fun p => respondWithJSON StatusCreated (JSONPayment p)) ps /\
  docs db' = (docs db ++ map asStored ps)%list /\
  evalState getPayments db' =
    respondWithJSON StatusOK
      (JSONPayments
         (mkPayments (SliceOf (docs db ++ map asStored ps))
            (Links.mk "https://api.test.form3.tech/v1/payments"))).
Proof.
  apply (creates_then_list
           [payload; setID "5ee3a8d8-ca7b-4290-a52c-dd5b6165ec43" payload2]
           (storeOf [setID "11" payload])).
  - reflexivity.
  - cbn. repeat constructor; cbn; intuition discriminate.
  - cbn. intros p [<-|[<-|[]]]; split; first [discriminate | reflexivity].
Defined.

Lemma Forall_replaceFirst (Q : Payment -> Prop) (sel : Selector)
      (new : Payment) (l : list Payment) :
  Q new -> Forall Q l -> Forall Q (replaceFirst sel new l).
Proof.
  intros Hnew. induction 1 as [|d l Hd Hl IH]; [constructor|].
  cbn [replaceFirst]. destruct (matches sel d); constructor; auto.
Qed.

Lemma Forall_removeFirst (Q : Payment -> Prop) (sel : Selector)
      (l : list Payment) :
  Forall Q l -> Forall Q (removeFirst sel l).
Proof.
  induction 1 as [|d l Hd Hl IH]; [constructor|].
  cbn [removeFirst]. destruct (matches sel d); [exact Hl|].
  constructor; auto.
Qed.

Lemma request_keeps_nonEmptyIDs (req : Request) (db : Database) :
  nonEmptyIDs db -> nonEmptyIDs (execState (initializeRoutes req) db).
Proof.
  intros Hne. unfold execState, nonEmptyIDs in *.
  destruct req as [|body|id|id body|id]; cbn [initializeRoutes].
  - rewrite run_getPayments. exact Hne.
  - destruct body as [|hasID decoded]; [exact Hne|].
    pose proof (run_createPayment hasID decoded db) as Hc. cbn zeta in Hc.
    rewrite Hc. clear Hc.
    set (p := fst (Decode (JSONObject hasID decoded) zeroPayment)).
    destruct (String.eqb_spec (ID p) ""); [exact Hne|].
    destruct (nextFails db); [exact Hne|].
    destruct (Nat.eqb (stored (ID p) db) 0); [|exact Hne].
    destruct (nextFails _); [exact Hne|].
    cbn [snd docs]. apply Forall_app. split; [exact Hne|].
    constructor; [assumption | constructor].
  - destruct (matchesVar id); [|exact Hne].
    rewrite run_getPayment. cbv zeta.
    repeat match goal with
           | |- context [if ?b then _ else _] => destruct b
           end; exact Hne.
  - destruct (matchesVar id); [|exact Hne].
    destruct body as [|hasID decoded]; [exact Hne|].
    pose proof (run_updatePayment id hasID decoded db) as Hc. cbn zeta in Hc.
    rewrite Hc. clear Hc.
    set (p := fst (Decode (JSONObject hasID decoded) (PaymentWithID id))).
    destruct (String.eqb_spec (ID p) ""); [exact Hne|].
    destruct (nextFails db); [exact Hne|].
    destruct (Nat.eqb (stored (ID p) db) 0); [exact Hne|].
    destruct (nextFails _); [exact Hne|].
    cbn [snd docs]. apply Forall_replaceFirst; assumption.
  - destruct (matchesVar id); [|exact Hne].
    rewrite run_deletePayment. cbv zeta.
    destruct (String.eqb id ""); [exact Hne|].
    destruct (nextFails db); [exact Hne|].
    destruct (Nat.eqb (stored id db) 0); [exact Hne|].
    destruct (nextFails _); [exact Hne|].
    cbn [snd docs]. apply Forall_removeFirst. exact Hne.
Qed.

Lemma request_keeps_uniqueIDs (req : Request) (db : Database) :
  uniqueIDs db -> uniqueIDs (execState (initializeRoutes req) db).
Proof.
  intros Hu. pose proof (handlers_keep_uniqueIDs db Hu) as H.
  destruct req as [|body|id|id body|id]; cbn [initializeRoutes];
    try destruct (matchesVar id); first [apply H | exact Hu].
Qed.

Lemma request_never_conflicts (req : Request) (db : Database) :
  uniqueIDs db ->
  evalState (initializeRoutes req) db <> conflictResponse.
Proof.
  intros Hu. unfold evalState, conflictResponse.
  destruct req as [|body|id|id body|id]; cbn [initializeRoutes].
  - rewrite run_getPayments. destruct (nextFails db); discriminate.
  - destruct body as [|hasID decoded]; [discriminate|].
    pose proof (run_createPayment hasID decoded db) as Hc. cbn zeta in Hc.
    rewrite Hc. clear Hc.
    repeat match goal with
           | |- context [if ?b then _ else _] => destruct b
           end; discriminate.
  - destruct (matchesVar id); [|discriminate].
    rewrite run_getPayment. cbv zeta.
    pose proof (stored_unique id db Hu) as Hle.
    destruct (String.eqb id ""); [discriminate|].
    destruct (nextFails db); [discriminate|].
    destruct (Nat.eqb (stored id db) 0); [discriminate|].
    destruct (Nat.ltb_spec 1 (stored id db)); [lia | discriminate].
  - destruct (matchesVar id); [|discriminate].
    destruct body as [|hasID decoded]; [discriminate|].
    pose proof (run_updatePayment id hasID decoded db) as Hc. cbn zeta in Hc.
    rewrite Hc. clear Hc.
    repeat match goal with
           | |- context [if ?b then _ else _] => destruct b
           end; discriminate.
  - destruct (matchesVar id); [|discriminate].
    rewrite run_deletePayment. cbv zeta.
    repeat match goal with
           | |- context [if ?b then _ else _] => destruct b
           end; discriminate.
Qed.

Lemma requests_keep_valid (reqs : list Request) (db : Database) :
  uniqueIDs db -> nonEmptyIDs db ->
  uniqueIDs (execState (executeRequests reqs) db) /\
  nonEmptyIDs (execState (executeRequests reqs) db) /\
  ~ In conflictResponse (evalState (executeRequests reqs) db).
Proof.
  revert db. induction reqs as [|req rest IH]; intros db Hu Hne.
  - cbn. auto.
  - unfold execState, evalState. rewrite run_executeRequests_cons.
    pose proof (request_keeps_uniqueIDs req db Hu) as Hu1.
    pose proof (request_keeps_nonEmptyIDs req db Hne) as Hne1.
    pose proof (request_never_conflicts req db Hu) as Hc.
    unfold execState, evalState in Hu1, Hne1, Hc.
    destruct (runState (initializeRoutes req) db) as [response db1].
    cbn [fst snd] in Hu1, Hne1, Hc.
    destruct (IH db1 Hu1 Hne1) as (Hu2 & Hne2 & Hc2).
    unfold execState, evalState in Hu2, Hne2, Hc2.
    destruct (runState (executeRequests rest) db1) as [responses db2].
    cbn [fst snd] in *. repeat split; auto.
    intros [E|Hin]; [exact (Hc E) | exact (Hc2 Hin)].
Qed.

(** X17: Whatever requests are served, in whatever order and with whatever
    store failures, starting from a store without records: afterwards no
    two records share an identifier, no record has an empty identifier, and
    no response was the "More than one payment returned per ID" error of
    the get operation. *)
Theorem requests_from_empty_store (reqs : list Request) (fs : list bool) :
  let db := mkDatabase [] fs [] in
  uniqueIDs (execState (executeRequests reqs) db) /\
  nonEmptyIDs (execState (executeRequests reqs) db) /\
  ~ In conflictResponse (evalState (executeRequests reqs) db).
Proof.
  apply requests_keep_valid; constructor.
Qed.

(** ** Lookup of stored records *)

Lemma filter_unique_record (d : Payment) (l : list Payment) :
  NoDup (map ID l) -> In d l -> filter (matches (SelID (ID d))) l = [d].
Proof.
  induction l as [|e l IH]; [intros _ []|].
  cbn [map In filter]. intros Hnd Hin.
  inversion Hnd as [|x xs Hnot Hnd']; subst.
  destruct Hin as [->|Hin].
  - rewrite matches_own_ID, (filter_absent _ _ Hnot). reflexivity.
  - destruct (matches (SelID (ID d)) e) eqn:M; [|auto].
    cbn [matches] in M. apply String.eqb_eq in M.
    exfalso. apply Hnot. rewrite M. apply in_map. exact Hin.
Qed.

(** X18: Every stored record can be fetched by its identifier: in a store that
    answers and keeps at most one record per identifier, the get handler
    answers the non-empty identifier of a stored record with 200 and that
    very record, and [modelGetPayment] returns it with count 1 and no
    error. *)
Theorem get_returns_stored_record (d : Payment) (db : Database) :
  uniqueIDs db -> answering db -> In d (docs db) -> ID d <> "" ->
  evalState (modelGetPayment (PaymentWithID (ID d))) db = (1, d, None) /\
  evalState (getPayment (ID d)) db = respondWithJSON StatusOK (JSONPayment d).
Proof.
  intros Hu Hup Hin Hid.
  pose proof (filter_unique_record d (docs db) Hu Hin) as Hf.
  assert (Hone : stored (ID d) db = 1%nat) by (unfold stored; now rewrite Hf).
  unfold evalState. rewrite run_modelGetPayment, run_getPayment.
  change (ID (PaymentWithID (ID d))) with (ID d). cbv zeta.
  rewrite (nonempty_eqb _ Hid), (answering_nextFails _ Hup), Hone.
  cbn [Nat.eqb Nat.ltb Nat.leb].
  rewrite run_One, (answering_nextFails _ (answering_logged _ _ Hup)).
  rewrite logged_docs, Hf. split; reflexivity.
Qed.

Lemma get_returns_stored_record_witness :
  evalState (modelGetPayment (PaymentWithID (ID payload)))
            (storeOf [setID "11" payload2; payload]) = (1, payload, None) /\
  evalState (getPayment (ID payload))
            (storeOf [setID "11" payload2; payload]) =
    respondWithJSON StatusOK (JSONPayment payload).
Proof.
  apply (get_returns_stored_record payload
           (storeOf [setID "11" payload2; payload])).
  - unfold uniqueIDs. cbn. repeat constructor; cbn; intuition discriminate.
  - reflexivity.
  - right. left. reflexivity.
  - discriminate.
Defined.

(** ** List *)

(** X19: The list handler, for every state of the store: it issues one find-all
    query; when that query fails it answers 500 with the driver's message,
    and otherwise 200 with all stored records in store order and the fixed
    link; it never answers another status. *)
Theorem getPayments_response_shape (db : Database) :
  let r := evalState getPayments db in
  (nextFails db = true /\ code r = StatusInternalServerError /\
   content r = JSONMap "error" (Error (driverError ErrUnreachable))) \/
  (nextFails db = false /\ code r = StatusOK /\
   content r =
     JSONPayments
       (mkPayments (SliceOf (docs db))
          (Links.mk "https://api.test.form3.tech/v1/payments"))).
Proof.
  cbv zeta. unfold evalState. rewrite run_getPayments.
  destruct (nextFails db); [left | right]; repeat split.
Qed.
